(** * Query-expansion service: model of the engine and of the HTTP gateway

    Shallow embedding of [docker/app/model_handler.py] (class
    [LlamaQueryExpander]) and of the [POST /expand] handler of
    [docker/app/main.py].

    Python [str] values are modelled by [string]; a character is a code
    point below 256, on which [str.lower], [str.isspace] and friends are
    the functions written out in [Module Py]. *)

From Stdlib Require Import ZArith Lia Bool.
From Stdlib Require Import Ascii.
From stdpp Require Import gmap strings.

Local Open Scope Z_scope.

(** ** The Python built-ins used by the service *)

Module Py.

(** [len(s)] *)
Definition len (s : string) : nat := String.length s.

(** [ord(c)] *)
Definition ord (c : ascii) : N := N_of_ascii c.

(** [c.isspace()]: the white-space code points below 256. *)
Definition isspace (c : ascii) : bool :=
  let n := ord c in
  ((9 <=? n) && (n <=? 13) || (28 <=? n) && (n <=? 32)
   || (n =? 133) || (n =? 160))%N.

(** [c.lower()]: [A-Z] and the upper-case letters of Latin-1 (all of
    192..222 but the multiplication sign 215) move up by 32. *)
Definition lower_char (c : ascii) : ascii :=
  let n := ord c in
  if ((65 <=? n) && (n <=? 90)
      || (192 <=? n) && (n <=? 222) && negb (n =? 215))%N
  then ascii_of_N (n + 32) else c.

(** [s.lower()] *)
Fixpoint lower (s : string) : string :=
  match s with
  | EmptyString => EmptyString
  | String c s' => String (lower_char c) (lower s')
  end.

(** [s.startswith(p)] *)
Fixpoint startswith (p s : string) : bool :=
  match p, s with
  | EmptyString, _ => true
  | String _ _, EmptyString => false
  | String a p', String b s' => Ascii.eqb a b && startswith p' s'
  end.

(** [s.endswith(p)]: some tail of [s] is [p]. *)
Fixpoint endswith (p s : string) : bool :=
  String.eqb p s ||
  match s with
  | EmptyString => false
  | String _ s' => endswith p s'
  end.

(** [sub in s] *)
Fixpoint contains (sub s : string) : bool :=
  startswith sub s ||
  match s with
  | EmptyString => false
  | String _ s' => contains sub s'
  end.

(** [s.lstrip()] *)
Fixpoint lstrip (s : string) : string :=
  match s with
  | EmptyString => EmptyString
  | String c s' => if isspace c then lstrip s' else s
  end.

(** [s.rstrip()] *)
Fixpoint rstrip (s : string) : string :=
  match s with
  | EmptyString => EmptyString
  | String c s' =>
      match rstrip s' with
      | EmptyString => if isspace c then EmptyString else String c EmptyString
      | r => String c r
      end
  end.

(** Only white space, if anything. *)
Fixpoint blank (s : string) : bool :=
  match s with
  | EmptyString => true
  | String c s' => isspace c && blank s'
  end.

(** [s.strip()] *)
Definition strip (s : string) : string := rstrip (lstrip s).

Fixpoint take (n : nat) (s : string) : string :=
  match n, s with
  | S n', String c s' => String c (take n' s')
  | _, _ => EmptyString
  end.

Fixpoint drop (n : nat) (s : string) : string :=
  match n, s with
  | S n', String _ s' => drop n' s'
  | _, _ => s
  end.

(** A slice bound: negative indices count from the end, and the result
    is clamped to [0 .. len s]. *)
Definition bound (s : string) (i : Z) : nat :=
  let n := Z.of_nat (len s) in
  let i' := if i <? 0 then i + n else i in
  Z.to_nat (Z.max 0 (Z.min i' n)).

(** [s[i:j]] *)
Definition slice (i j : Z) (s : string) : string :=
  let lo := bound s i in
  let hi := bound s j in
  take (hi - lo) (drop lo s).

(** [s.replace(old, new)] for a non-empty [old]: the occurrences of
    [old] are found from left to right and do not overlap.  [skip]
    counts the characters of the occurrence just replaced that are
    still to be passed over. *)
Fixpoint replace_from (skip : nat) (old new s : string) : string :=
  match s with
  | EmptyString => EmptyString
  | String c s' =>
      match skip with
      | S k => replace_from k old new s'
      | O =>
          if startswith old s
          then new +:+ replace_from (len old - 1) old new s'
          else String c (replace_from O old new s')
      end
  end.

(** [s.replace(old, new)]; with an empty [old] Python puts [new]
    before every character and at the end. *)
Fixpoint interleave (new s : string) : string :=
  match s with
  | EmptyString => new
  | String c s' => new +:+ String c (interleave new s')
  end.

Definition replace (old new s : string) : string :=
  match old with
  | EmptyString => interleave new s
  | _ => replace_from O old new s
  end.

(** [s.split()]: the maximal runs of non-space characters.  [cur] is
    the run being read, if one has started. *)
Fixpoint split_from (cur : option string) (s : string) : list string :=
  match s with
  | EmptyString =>
      match cur with Some w => [w] | None => [] end
  | String c s' =>
      if isspace c
      then match cur with
           | Some w => w :: split_from None s'
           | None => split_from None s'
           end
      else match cur with
           | Some w => split_from (Some (w +:+ String c EmptyString)) s'
           | None => split_from (Some (String c EmptyString)) s'
           end
  end.

Definition split (s : string) : list string := split_from None s.

(** [s.split(sep)[-1]] for a non-empty [sep]: what follows the last
    of the occurrences of [sep] found from left to right. *)
Fixpoint last_field_from (skip : nat) (sep cur s : string) : string :=
  match s with
  | EmptyString => cur
  | String c s' =>
      match skip with
      | S k => last_field_from k sep cur s'
      | O =>
          if startswith sep s
          then last_field_from (len sep - 1) sep EmptyString s'
          else last_field_from O sep (cur +:+ String c EmptyString) s'
      end
  end.

Definition last_field (sep s : string) : string :=
  last_field_from O sep EmptyString s.

End Py.

(** ** Exceptions and the monad of effectful code *)

(** The [detail] argument of an [HTTPException]: a literal, or [str(e)]
    of the exception being reported. *)
Inductive exn : Type :=
| ValueError (msg : string)
| RuntimeError (msg : string)
| AttributeError (msg : string)
| ClientError (msg : string)
| OtherException (msg : string)
| HTTPException (status_code : nat) (detail : http_detail)
with http_detail : Type :=
| Detail (msg : string)
| StrOf (e : exn).

(** Every class above derives from [Exception], so [except Exception]
    catches each of them; signals that derive from [BaseException] only
    (keyboard interrupt, task cancellation) are outside the model. *)

Inductive outcome (A : Type) : Type :=
| Return (a : A)
| Raise (e : exn).
Arguments Return {A} a.
Arguments Raise {A} e.

(** A computation over a mutable state [S]: what was written before an
    exception is raised stays written. *)
Definition M (S A : Type) : Type := S -> outcome A * S.

Definition ret {S A} (a : A) : M S A := fun s => (Return a, s).

Definition raise {S A} (e : exn) : M S A := fun s => (Raise e, s).

Definition bind {S A B} (m : M S A) (k : A -> M S B) : M S B :=
  fun s => match m s with
           | (Return a, s') => k a s'
           | (Raise e, s') => (Raise e, s')
           end.

(** [try: body except Exception as e: handler(e)] *)
Definition try_except {S A} (body : M S A) (handler : exn -> M S A) : M S A :=
  fun s => match body s with
           | (Return a, s') => (Return a, s')
           | (Raise e, s') => handler e s'
           end.

Definition get {S} : M S S := fun s => (Return s, s).
Definition modify {S} (f : S -> S) : M S unit := fun s => (Return tt, f s).

(** The result of a call into a library, decided outside the program. *)
Definition call {S A} (o : outcome A) : M S A := fun s => (o, s).

Declare Scope monad_scope.
Delimit Scope monad_scope with monad.
Bind Scope monad_scope with M.
Notation "x <- m ;; k" := (bind m (fun x => k))
  (at level 100, m at next level, right associativity) : monad_scope.
Notation "m ;;; k" := (bind m (fun _ => k))
  (at level 100, right associativity) : monad_scope.
Local Open Scope monad_scope.

(** ** The world outside the two modules

    [World] is what a request can change: the torch random generator,
    the time spent sleeping, the clock, the Prometheus series, the SQS
    queue and the background tasks of the request.  [engine_calls] is a
    ghost log of the queries handed to the model handler by the
    gateway. *)

Record QueueMessage : Type := {
  msg_query : string;
  msg_timestamp : Z }.

Record LogTask : Type := {
  log_original : string;
  log_expanded : string;
  log_time : Z }.

Record World : Type := {
  random_draws : nat;
  slept_ms : Z;
  time_reads : nat;
  REQUEST_COUNT : nat;
  ERROR_COUNT : nat;
  REQUEST_LATENCY : list Z;
  sqs_queue : list QueueMessage;
  background_tasks : list LogTask;
  engine_calls : list string }.

(** [torch.randint(...)]: one more draw from the generator; the caller
    gets the index of the draw. *)
Definition torch_draw : M World nat :=
  fun w =>
    (Return (random_draws w),
     {| random_draws := S (random_draws w); slept_ms := slept_ms w;
        time_reads := time_reads w; REQUEST_COUNT := REQUEST_COUNT w;
        ERROR_COUNT := ERROR_COUNT w; REQUEST_LATENCY := REQUEST_LATENCY w;
        sqs_queue := sqs_queue w; background_tasks := background_tasks w;
        engine_calls := engine_calls w |}).

(** [await asyncio.sleep(ms / 1000)] *)
Definition asyncio_sleep (ms : Z) : M World unit :=
  modify (fun w =>
     {| random_draws := random_draws w; slept_ms := slept_ms w + ms;
        time_reads := time_reads w; REQUEST_COUNT := REQUEST_COUNT w;
        ERROR_COUNT := ERROR_COUNT w; REQUEST_LATENCY := REQUEST_LATENCY w;
        sqs_queue := sqs_queue w; background_tasks := background_tasks w;
        engine_calls := engine_calls w |}).

(** ** docker/app/model_handler.py *)

Module ModelHandler.

Import Py.

Inductive device_t : Type := cuda | cpu.

(** What [self.model] can hold: a model built by
    [AutoModelForCausalLM.from_pretrained], or an instance of the local
    class [MockModel]; both have a [generate] method. *)
Inductive model_obj : Type := HFModel | MockModel.

(** What [self.tokenizer] can hold: a tokenizer built by
    [AutoTokenizer.from_pretrained], with its [pad_token] and
    [eos_token], or an instance of the local class [MockTokenizer]. *)
Inductive tokenizer_obj : Type :=
| HFTokenizer (pad_token eos_token : option string)
| MockTokenizer.

Record LlamaQueryExpander : Type := {
  model : option model_obj;
  tokenizer : option tokenizer_obj;
  device : device_t;
  ready : bool }.

(** [__init__] *)
Definition init (cuda_is_available : bool) : LlamaQueryExpander :=
  {| model := None; tokenizer := None;
     device := if cuda_is_available then cuda else cpu;
     ready := false |}.

Definition set_model (m : option model_obj) (self : LlamaQueryExpander) :=
  {| model := m; tokenizer := tokenizer self;
     device := device self; ready := ready self |}.

Definition set_tokenizer (t : option tokenizer_obj) (self : LlamaQueryExpander) :=
  {| model := model self; tokenizer := t;
     device := device self; ready := ready self |}.

Definition set_ready (b : bool) (self : LlamaQueryExpander) :=
  {| model := model self; tokenizer := tokenizer self;
     device := device self; ready := b |}.

(** *** Loading *)

(** The two attempts of [load_model] at building the model. *)
Inductive attempt : Type := Quantized | Fallback.

(** What the environment and the libraries answer during [load_model]:
    each call may return or raise. *)
Record Loader : Type := {
  getenv_HF_TOKEN : option string;
  AutoTokenizer_from_pretrained : outcome tokenizer_obj;
  BitsAndBytesConfig : outcome unit;
  AutoModelForCausalLM_from_pretrained : attempt -> outcome model_obj;
  model_to : attempt -> outcome model_obj;
  model_eval : attempt -> outcome unit }.

(** [not hf_token]: [None] and the empty string are falsy. *)
Definition falsy (o : option string) : bool :=
  match o with
  | Some (String _ _) => false
  | _ => true
  end.

(** Lines 137-172. *)
Definition _create_mock_model : M LlamaQueryExpander unit :=
  modify (set_model (Some MockModel)) ;;;
  modify (set_tokenizer (Some MockTokenizer)) ;;;
  modify (set_ready true).

(** Lines 49-62: the tokenizer, with the exception raised again. *)
Definition load_tokenizer (L : Loader) : M LlamaQueryExpander unit :=
  try_except
    (tok <- call (AutoTokenizer_from_pretrained L) ;;
     modify (set_tokenizer (Some tok)) ;;;
     match tok with
     | HFTokenizer None eos =>
         modify (set_tokenizer (Some (HFTokenizer eos eos)))
     | _ => ret tt
     end)
    (fun e => raise e).

(** Lines 95-105. *)
Definition load_quantized (L : Loader) : M LlamaQueryExpander unit :=
  m <- call (AutoModelForCausalLM_from_pretrained L Quantized) ;;
  modify (set_model (Some m)) ;;;
  self <- get ;;
  match device self with
  | cpu => m' <- call (model_to L Quantized) ;; modify (set_model (Some m'))
  | cuda => ret tt
  end ;;;
  call (model_eval L Quantized).

(** Lines 107-127. *)
Definition load_fallback (L : Loader) : M LlamaQueryExpander unit :=
  m <- call (AutoModelForCausalLM_from_pretrained L Fallback) ;;
  modify (set_model (Some m)) ;;;
  m' <- call (model_to L Fallback) ;;
  modify (set_model (Some m')) ;;;
  call (model_eval L Fallback).

(** Lines 39-130: the body of the outer [try]. *)
Definition load_model_body (L : Loader) : M LlamaQueryExpander unit :=
  (if falsy (getenv_HF_TOKEN L)
   then raise (ValueError "Hugging Face token is required")
   else ret tt) ;;;
  load_tokenizer L ;;;
  call (BitsAndBytesConfig L) ;;;
  try_except (load_quantized L) (fun _ => load_fallback L) ;;;
  modify (set_ready true).

Definition load_model (L : Loader) : M LlamaQueryExpander unit :=
  try_except (load_model_body L) (fun _ => _create_mock_model).

Definition is_ready (self : LlamaQueryExpander) : bool :=
  ready self && bool_decide (model self <> None).

(** *** Response cleaning, lines 287-300 *)

(** The one-character string made of a double quote. *)
Definition dquote : string := String "034"%char EmptyString.

Definition _clean_response (response : string) : string :=
  let response := strip response in
  let response :=
    if startswith dquote response && endswith dquote response
    then slice 1 (-1) response
    else response in
  let response :=
    if (200 <? Z.of_nat (len response))%Z
    then strip (slice 0 200 response)
    else response in
  response.


(** *** The mock expansion, lines 244-285 *)

Definition expansions : gmap string string :=
  list_to_map [
    ("ML algos", "machine learning algorithms");
    ("AI/ML enginer", "artificial intelligence machine learning engineer");
    ("deep lerning", "deep learning");
    ("NLP techniques", "natural language processing techniques");
    ("computer vison", "computer vision");
    ("data sci", "data science");
    ("neural nets", "neural networks");
    ("CNN", "convolutional neural networks");
    ("RNN", "recurrent neural networks") ].

(** Lines 267-268. *)
Definition repair_algo (query_lower expanded : string) : string :=
  if contains "algo" query_lower && negb (contains "algorithm" query_lower)
  then replace "algos" "algorithms" (replace "algo" "algorithm" expanded)
  else expanded.

(** Lines 269-270. *)
Definition repair_enginer (query_lower expanded : string) : string :=
  if contains "enginer" query_lower
  then replace "enginer" "engineer" expanded
  else expanded.

(** Lines 271-272. *)
Definition repair_lerning (query_lower expanded : string) : string :=
  if contains "lerning" query_lower
  then replace "lerning" "learning" expanded
  else expanded.

(** Lines 273-274. *)
Definition repair_vison (query_lower expanded : string) : string :=
  if contains "vison" query_lower
  then replace "vison" "vision" expanded
  else expanded.

(** Lines 275-276. *)
Definition repair_sci (query query_lower expanded : string) : string :=
  if contains "sci" query_lower && (length (split query) <=? 2)%nat
  then replace "sci" "science" expanded
  else expanded.

(** Lines 264-276: the text after the five repairs. *)
Definition repairs (query : string) : string :=
  let query_lower := lower query in
  let expanded := query in
  let expanded := repair_algo query_lower expanded in
  let expanded := repair_enginer query_lower expanded in
  let expanded := repair_lerning query_lower expanded in
  let expanded := repair_vison query_lower expanded in
  let expanded := repair_sci query query_lower expanded in
  expanded.

(** Lines 279-280. *)
Definition add_context (query expanded : string) : string :=
  if (length (split query) =? 1)%nat && (len query <=? 4)%nat
  then expanded +:+ " techniques and applications"
  else expanded.

Definition _expand_with_mock_model
    (self : LlamaQueryExpander) (query : string) : M World string :=
  match expansions !! query with
  | Some expansion => ret expansion
  | None =>
      let expanded := add_context query (repairs query) in
      asyncio_sleep 100 ;;;
      ret (if String.eqb expanded query
           then "enhanced " +:+ query
           else expanded)
  end.

(** *** The model path, lines 192-242 *)

(** What [self.tokenizer(prompt, ...)] returns: a [BatchEncoding] from
    the library, or the plain [dict] of [MockTokenizer.__call__]. *)
Inductive encoding : Type :=
| BatchEncoding (input_ids : list Z)
| PlainDict (input_ids : list Z).

Definition encoding_ids (enc : encoding) : list Z :=
  match enc with
  | BatchEncoding ids => ids
  | PlainDict ids => ids
  end.

(** What the libraries answer during generation.  [generate] samples,
    so its answer depends on the draw it is given; [randint] is the
    tensor of the given draw. *)
Record Backend : Type := {
  tokenize : string -> outcome (list Z);
  to_device : outcome unit;
  generate : list Z -> nat -> outcome (list Z);
  decode : list Z -> outcome string;
  randint : nat -> list Z;
  empty_cache : outcome unit }.

Definition prompt_template (query : string) : string :=
  "You are a search query optimizer. Your task is to improve the given search query by:
1. Expanding abbreviations to full words
2. Correcting spelling mistakes
3. Adding relevant synonyms or related terms
4. Improving clarity while maintaining the original intent

Rules:
- Keep the expanded query concise (max 2x original length)
- Maintain the original search intent
- Use common, searchable terms
- Return only the improved query, no explanations

Original query: " +:+ query +:+ "
Improved query:".

(** [self.tokenizer(prompt, ...)] *)
Definition tokenizer_call
    (self : LlamaQueryExpander) (B : Backend) (prompt : string)
  : M World encoding :=
  match tokenizer self with
  | Some (HFTokenizer _ _) =>
      ids <- call (tokenize B prompt) ;; ret (BatchEncoding ids)
  | Some MockTokenizer =>
      d <- torch_draw ;; ret (PlainDict (randint B d))
  | None => raise (OtherException "'NoneType' object is not callable")
  end.

(** [inputs.to(self.device)]: a [dict] has no such method. *)
Definition encoding_to (B : Backend) (enc : encoding) : M World encoding :=
  match enc with
  | BatchEncoding ids => call (to_device B) ;;; ret enc
  | PlainDict _ =>
      raise (AttributeError "'dict' object has no attribute 'to'")
  end.

(** [self.model.generate(...)] on the unpacked inputs *)
Definition model_generate
    (self : LlamaQueryExpander) (B : Backend) (inputs : encoding)
  : M World (list Z) :=
  match model self with
  | Some HFModel =>
      d <- torch_draw ;; call (generate B (encoding_ids inputs) d)
  | Some MockModel =>
      d <- torch_draw ;; ret (randint B d)
  | None =>
      raise (AttributeError "'NoneType' object has no attribute 'generate'")
  end.

(** [self.tokenizer.decode(outputs[0], ...)] *)
Definition tokenizer_decode
    (self : LlamaQueryExpander) (B : Backend) (outputs : list Z)
  : M World string :=
  match tokenizer self with
  | Some (HFTokenizer _ _) => call (decode B outputs)
  | Some MockTokenizer =>
      ret "expanded query with machine learning algorithms"
  | None =>
      raise (AttributeError "'NoneType' object has no attribute 'decode'")
  end.

(** Lines 195-238: the body of the [try] of [_expand_with_real_model]. *)
Definition real_model_body
    (self : LlamaQueryExpander) (B : Backend) (query : string)
  : M World string :=
  let prompt := prompt_template query in
  inputs <- tokenizer_call self B prompt ;;
  inputs <- encoding_to B inputs ;;
  outputs <- model_generate self B inputs ;;
  generated_text <- tokenizer_decode self B outputs ;;
  let expanded_query :=
    if contains "Improved query:" generated_text
    then strip (last_field "Improved query:" generated_text)
    else query in
  let expanded_query := _clean_response expanded_query in
  match device self with
  | cuda => call (empty_cache B)
  | cpu => ret tt
  end ;;;
  ret expanded_query.

Definition _expand_with_real_model
    (self : LlamaQueryExpander) (B : Backend) (query : string)
  : M World string :=
  try_except (real_model_body self B query)
             (fun _ => _expand_with_mock_model self query).

(** [hasattr(self.model, 'generate')] and
    [hasattr(self.tokenizer, 'decode')]: every model and every tokenizer
    has the method, [None] has not. *)
Definition has_generate (m : option model_obj) : bool :=
  match m with Some _ => true | None => false end.

Definition has_decode (t : option tokenizer_obj) : bool :=
  match t with Some _ => true | None => false end.

(** Lines 174-190. *)
Definition expand_query
    (self : LlamaQueryExpander) (B : Backend) (query : string)
  : M World string :=
  if negb (ready self)
  then raise (RuntimeError "Model not loaded")
  else
    try_except
      (if has_generate (model self) && has_decode (tokenizer self)
       then _expand_with_real_model self B query
       else _expand_with_mock_model self query)
      (fun _ => _expand_with_mock_model self query).

End ModelHandler.

(** ** docker/app/main.py *)

Module Main.

(** What the global [model_handler] can hold: the expander, or the
    local class [MockModelHandler] of [lifespan]. *)
Inductive handler : Type :=
| Expander (self : ModelHandler.LlamaQueryExpander)
| MockModelHandler (ready : bool).

Record SQSHandler : Type := { queue_url : string }.

Record MLflowLogger : Type := { tracking_uri : string }.

(** The three globals, set by [lifespan] and read by the handlers. *)
Record App : Type := {
  model_handler : option handler;
  sqs_handler : option SQSHandler;
  mlflow_logger : option MLflowLogger }.

(** [time_time n] is the [n]-th reading of [time.time()], in
    milliseconds; [send_message] is the answer of the queue. *)
Record Services : Type := {
  time_time : nat -> Z;
  send_message : QueueMessage -> outcome string }.

Record QueryRequest : Type := {
  query : string;
  use_queue : bool }.

Record QueryResponse : Type := {
  original_query : string;
  expanded_query : string;
  processing_time : Z;
  queued : bool }.

Definition handler_is_ready (h : handler) : bool :=
  match h with
  | Expander self => ModelHandler.is_ready self
  | MockModelHandler ready => ready
  end.

Definition handler_expand_query
    (h : handler) (B : ModelHandler.Backend) (q : string) : M World string :=
  match h with
  | Expander self => ModelHandler.expand_query self B q
  | MockModelHandler _ => asyncio_sleep 100 ;;; ret ("expanded: " +:+ q)
  end.

(** [time.time()] *)
Definition time (sv : Services) : M World Z :=
  fun w =>
    (Return (time_time sv (time_reads w)),
     {| random_draws := random_draws w; slept_ms := slept_ms w;
        time_reads := S (time_reads w); REQUEST_COUNT := REQUEST_COUNT w;
        ERROR_COUNT := ERROR_COUNT w; REQUEST_LATENCY := REQUEST_LATENCY w;
        sqs_queue := sqs_queue w; background_tasks := background_tasks w;
        engine_calls := engine_calls w |}).

(** [REQUEST_COUNT.inc()] *)
Definition REQUEST_COUNT_inc : M World unit :=
  modify (fun w =>
     {| random_draws := random_draws w; slept_ms := slept_ms w;
        time_reads := time_reads w; REQUEST_COUNT := S (REQUEST_COUNT w);
        ERROR_COUNT := ERROR_COUNT w; REQUEST_LATENCY := REQUEST_LATENCY w;
        sqs_queue := sqs_queue w; background_tasks := background_tasks w;
        engine_calls := engine_calls w |}).

(** [ERROR_COUNT.inc()] *)
Definition ERROR_COUNT_inc : M World unit :=
  modify (fun w =>
     {| random_draws := random_draws w; slept_ms := slept_ms w;
        time_reads := time_reads w; REQUEST_COUNT := REQUEST_COUNT w;
        ERROR_COUNT := S (ERROR_COUNT w); REQUEST_LATENCY := REQUEST_LATENCY w;
        sqs_queue := sqs_queue w; background_tasks := background_tasks w;
        engine_calls := engine_calls w |}).

(** [REQUEST_LATENCY.observe(t)] *)
Definition REQUEST_LATENCY_observe (t : Z) : M World unit :=
  modify (fun w =>
     {| random_draws := random_draws w; slept_ms := slept_ms w;
        time_reads := time_reads w; REQUEST_COUNT := REQUEST_COUNT w;
        ERROR_COUNT := ERROR_COUNT w; REQUEST_LATENCY := t :: REQUEST_LATENCY w;
        sqs_queue := sqs_queue w; background_tasks := background_tasks w;
        engine_calls := engine_calls w |}).

(** [await sqs_handler.send_message(body)]: the message is in the queue
    when the call returns; [ClientError] is logged and raised again. *)
Definition sqs_send_message (sv : Services) (body : QueueMessage) : M World string :=
  fun w =>
    match send_message sv body with
    | Return message_id =>
        (Return message_id,
         {| random_draws := random_draws w; slept_ms := slept_ms w;
            time_reads := time_reads w; REQUEST_COUNT := REQUEST_COUNT w;
            ERROR_COUNT := ERROR_COUNT w; REQUEST_LATENCY := REQUEST_LATENCY w;
            sqs_queue := body :: sqs_queue w;
            background_tasks := background_tasks w;
            engine_calls := engine_calls w |})
    | Raise e => (Raise e, w)
    end.

(** [background_tasks.add_task(mlflow_logger.log_query_expansion, ...)] *)
Definition add_task (t : LogTask) : M World unit :=
  modify (fun w =>
     {| random_draws := random_draws w; slept_ms := slept_ms w;
        time_reads := time_reads w; REQUEST_COUNT := REQUEST_COUNT w;
        ERROR_COUNT := ERROR_COUNT w; REQUEST_LATENCY := REQUEST_LATENCY w;
        sqs_queue := sqs_queue w; background_tasks := t :: background_tasks w;
        engine_calls := engine_calls w |}).

(** [await model_handler.expand_query(q)], with the call noted in the
    ghost log. *)
Definition call_engine
    (h : handler) (B : ModelHandler.Backend) (q : string) : M World string :=
  modify (fun w =>
     {| random_draws := random_draws w; slept_ms := slept_ms w;
        time_reads := time_reads w; REQUEST_COUNT := REQUEST_COUNT w;
        ERROR_COUNT := ERROR_COUNT w; REQUEST_LATENCY := REQUEST_LATENCY w;
        sqs_queue := sqs_queue w; background_tasks := background_tasks w;
        engine_calls := q :: engine_calls w |}) ;;;
  handler_expand_query h B q.

(** Lines 122-124. *)
Definition not_ready : M World QueryResponse :=
  ERROR_COUNT_inc ;;;
  raise (HTTPException 503 (Detail "Model not ready")).

(** Lines 127-139. *)
Definition queue_request
    (sv : Services) (request : QueryRequest) (start_time : Z)
  : M World QueryResponse :=
  timestamp <- time sv ;;
  message_id <- sqs_send_message sv
     {| msg_query := query request; msg_timestamp := timestamp |} ;;
  now <- time sv ;;
  ret {| original_query := query request;
         expanded_query := "Request queued for processing";
         processing_time := now - start_time;
         queued := true |}.

(** Lines 141-163. *)
Definition process_immediately
    (app : App) (sv : Services) (B : ModelHandler.Backend)
    (h : handler) (request : QueryRequest) (start_time : Z)
  : M World QueryResponse :=
  expanded <- call_engine h B (query request) ;;
  now <- time sv ;;
  let processing_time := now - start_time in
  match mlflow_logger app with
  | Some _ =>
      add_task {| log_original := query request; log_expanded := expanded;
                  log_time := processing_time |}
  | None => ret tt
  end ;;;
  REQUEST_LATENCY_observe processing_time ;;;
  ret {| original_query := query request;
         expanded_query := expanded;
         processing_time := processing_time;
         queued := false |}.

(** Lines 115-168: the handler of [POST /expand]. *)
Definition expand_query
    (app : App) (sv : Services) (B : ModelHandler.Backend)
    (request : QueryRequest) : M World QueryResponse :=
  start_time <- time sv ;;
  REQUEST_COUNT_inc ;;;
  try_except
    (match model_handler app with
     | None => not_ready
     | Some h =>
         if negb (handler_is_ready h) then not_ready
         else if use_queue request && bool_decide (sqs_handler app <> None)
         then queue_request sv request start_time
         else process_immediately app sv B h request start_time
     end)
    (fun e =>
       ERROR_COUNT_inc ;;;
       raise (HTTPException 500 (StrOf e))).

(** The status of the HTTP response: 200 when the handler returns, the
    status of the [HTTPException] it raises otherwise (and 500 for any
    other exception that would leave it). *)
Definition status_code {A} (r : outcome A) : nat :=
  match r with
  | Return _ => 200
  | Raise (HTTPException status _) => status
  | Raise _ => 500
  end.

End Main.

(** ** The claim on the repairs, as the specification words it

    Each repair is applied whenever the lower-cased query contains its
    trigger, whatever else the query holds. *)
Module AsSpecified.

Import Py.

Definition repair (trigger old new query_lower expanded : string) : string :=
  if contains trigger query_lower then replace old new expanded else expanded.

Definition repairs (query : string) : string :=
  let query_lower := lower query in
  let expanded := query in
  let expanded :=
    repair "algo" "algos" "algorithms" query_lower
      (repair "algo" "algo" "algorithm" query_lower expanded) in
  let expanded := repair "enginer" "enginer" "engineer" query_lower expanded in
  let expanded := repair "lerning" "lerning" "learning" query_lower expanded in
  let expanded := repair "vison" "vison" "vision" query_lower expanded in
  let expanded := repair "sci" "sci" "science" query_lower expanded in
  expanded.

End AsSpecified.

(** ** Values used by the examples *)

Module Sample.

(** ["a" * n] *)
Fixpoint times (s : string) (n : nat) : string :=
  match n with
  | O => EmptyString
  | S n' => s +:+ times s n'
  end.

Definition world0 : World :=
  {| random_draws := 0; slept_ms := 0; time_reads := 0;
     REQUEST_COUNT := 0; ERROR_COUNT := 0; REQUEST_LATENCY := [];
     sqs_queue := []; background_tasks := []; engine_calls := [] |}.

(** A fresh expander on a machine without a GPU. *)
Definition fresh : ModelHandler.LlamaQueryExpander := ModelHandler.init false.

(** An expander whose model and tokenizer were loaded. *)
Definition loaded : ModelHandler.LlamaQueryExpander :=
  {| ModelHandler.model := Some ModelHandler.HFModel;
     ModelHandler.tokenizer := Some (ModelHandler.HFTokenizer (Some "<eos>") (Some "<eos>"));
     ModelHandler.device := ModelHandler.cpu;
     ModelHandler.ready := true |}.

(** A backend whose [generate] runs out of memory. *)
Definition failing_backend : ModelHandler.Backend :=
  {| ModelHandler.tokenize := fun _ => Return [1; 2; 3];
     ModelHandler.to_device := Return tt;
     ModelHandler.generate := fun _ _ => Raise (RuntimeError "CUDA out of memory");
     ModelHandler.decode := fun _ => Return "";
     ModelHandler.randint := fun _ => [];
     ModelHandler.empty_cache := Return tt |}.

(** A machine with no token for the model hub. *)
Definition no_token : ModelHandler.Loader :=
  {| ModelHandler.getenv_HF_TOKEN := None;
     ModelHandler.AutoTokenizer_from_pretrained :=
       Return (ModelHandler.HFTokenizer None (Some "<eos>"));
     ModelHandler.BitsAndBytesConfig := Return tt;
     ModelHandler.AutoModelForCausalLM_from_pretrained :=
       fun _ => Return ModelHandler.HFModel;
     ModelHandler.model_to := fun _ => Return ModelHandler.HFModel;
     ModelHandler.model_eval := fun _ => Return tt |}.

Definition clock : nat -> Z := fun n => 1000 + 5 * Z.of_nat n.

(** A queue that accepts every message. *)
Definition queue_up : Main.Services :=
  {| Main.time_time := clock;
     Main.send_message := fun _ => Return "message-id-123" |}.

(** A queue that refuses every message. *)
Definition queue_down : Main.Services :=
  {| Main.time_time := clock;
     Main.send_message := fun _ => Raise (ClientError "AccessDenied") |}.

(** The application before start-up has completed. *)
Definition app_starting : Main.App :=
  {| Main.model_handler := None;
     Main.sqs_handler := None;
     Main.mlflow_logger := None |}.

(** The application with a loaded model and a queue. *)
Definition app_queue : Main.App :=
  {| Main.model_handler := Some (Main.Expander loaded);
     Main.sqs_handler := Some {| Main.queue_url := "https://sqs.example/q" |};
     Main.mlflow_logger := Some {| Main.tracking_uri := "http://localhost:5000" |} |}.

Definition test_query : Main.QueryRequest :=
  {| Main.query := "test query"; Main.use_queue := false |}.

Definition queued_query : Main.QueryRequest :=
  {| Main.query := "test query"; Main.use_queue := true |}.

End Sample.

(** ** What the model handler leaves alone *)

(** [w'] differs from [w] at most by draws from the random generator
    and by time spent sleeping. *)
Definition engine_frame (w w' : World) : Prop :=
  (random_draws w <= random_draws w')%nat
  /\ slept_ms w <= slept_ms w'
  /\ time_reads w' = time_reads w
  /\ REQUEST_COUNT w' = REQUEST_COUNT w
  /\ ERROR_COUNT w' = ERROR_COUNT w
  /\ REQUEST_LATENCY w' = REQUEST_LATENCY w
  /\ sqs_queue w' = sqs_queue w
  /\ background_tasks w' = background_tasks w
  /\ engine_calls w' = engine_calls w.

(** [r] is a run of consecutive characters of [s]. *)
Definition infix_of (r s : string) : Prop :=
  exists a b, s = a +:+ r +:+ b.

(** ** docker/app/model_handler.py, lines 306-318: [cleanup] *)

Module Cleanup.

Import ModelHandler.

(** An instance and its attributes: [del self.model] takes the
    attribute away, and reading it afterwards raises. *)
Record Instance : Type := {
  fields : LlamaQueryExpander;
  has_model : bool;
  has_tokenizer : bool }.

(** An instance as [__init__] and [load_model] leave it, with every
    attribute in place. *)
Definition of_expander (self : LlamaQueryExpander) : Instance :=
  {| fields := self; has_model := true; has_tokenizer := true |}.

(** What torch answers during [cleanup]. *)
Record Runtime : Type := {
  cuda_is_available : bool;
  cuda_empty_cache : outcome unit }.

(** [self.model] *)
Definition getattr_model : M Instance (option model_obj) :=
  fun i =>
    if has_model i then (Return (model (fields i)), i)
    else (Raise (AttributeError
            "'LlamaQueryExpander' object has no attribute 'model'"), i).

(** [self.tokenizer] *)
Definition getattr_tokenizer : M Instance (option tokenizer_obj) :=
  fun i =>
    if has_tokenizer i then (Return (tokenizer (fields i)), i)
    else (Raise (AttributeError
            "'LlamaQueryExpander' object has no attribute 'tokenizer'"), i).

(** [del self.model] *)
Definition del_model : M Instance unit :=
  modify (fun i =>
    {| fields := set_model None (fields i);
       has_model := false; has_tokenizer := has_tokenizer i |}).

(** [del self.tokenizer] *)
Definition del_tokenizer : M Instance unit :=
  modify (fun i =>
    {| fields := set_tokenizer None (fields i);
       has_model := has_model i; has_tokenizer := false |}).

(** [self.ready = False] *)
Definition clear_ready : M Instance unit :=
  modify (fun i =>
    {| fields := set_ready false (fields i);
       has_model := has_model i; has_tokenizer := has_tokenizer i |}).

(** Lines 306-318.  Every model and every tokenizer object is truthy;
    [gc.collect()] changes nothing here. *)
Definition cleanup (R : Runtime) : M Instance unit :=
  m <- getattr_model ;;
  match m with Some _ => del_model | None => ret tt end ;;;
  t <- getattr_tokenizer ;;
  match t with Some _ => del_tokenizer | None => ret tt end ;;;
  (if cuda_is_available R then call (cuda_empty_cache R) else ret tt) ;;;
  clear_ready.

(** [is_ready()] on an instance: the model is read only when the flag
    is up. *)
Definition is_ready : M Instance bool :=
  self <- get ;;
  if ready (fields self)
  then m <- getattr_model ;; ret (bool_decide (m <> None))
  else ret false.

End Cleanup.

(** ** docker/app/queue_handler.py and the endpoints of main.py *)

Module Endpoints.

Import Main.

(** The values of the JSON objects the endpoints return. *)
Inductive value : Type :=
| VBool (b : bool)
| VInt (n : Z)
| VStr (s : string)
| VStrOf (e : exn).

(** Lines 103-108 of main.py. *)
Definition health_check (app : App) : gmap string value :=
  match model_handler app with
  | Some h =>
      if handler_is_ready h
      then {[ "status" := VStr "healthy"; "model_loaded" := VBool true ]}
      else {[ "status" := VStr "unhealthy"; "model_loaded" := VBool false ]}
  | None => {[ "status" := VStr "unhealthy"; "model_loaded" := VBool false ]}
  end.

Section QueueStatus.

(** [int(x)] on a string, a built-in taken as it comes: it returns an
    integer or raises [ValueError]. *)
Variable int : string -> outcome Z.

(** The answer of [sqs.get_queue_attributes]: it raises, or it is a
    response whose ['Attributes'] entry, when it has one, maps names
    to strings. *)
Variable get_queue_attributes : outcome (option (gmap string string)).

(** [int(attributes.get(name, 0))] *)
Definition int_attribute (attributes : gmap string string) (name : string)
  : M World Z :=
  match attributes !! name with
  | Some text => call (int text)
  | None => ret 0
  end.

(** Lines 60-77 of queue_handler.py; the [ClientError] caught there is
    raised again. *)
Definition get_queue_status : M World (gmap string value) :=
  try_except
    (response <- call get_queue_attributes ;;
     attributes <-
       match response with
       | Some attributes => ret attributes
       | None => raise (OtherException "KeyError: 'Attributes'")
       end ;;
     available <- int_attribute attributes "ApproximateNumberOfMessages" ;;
     in_flight <- int_attribute attributes "ApproximateNumberOfMessagesNotVisible" ;;
     ret {[ "messages_available" := VInt available;
            "messages_in_flight" := VInt in_flight ]})
    (fun e => raise e).

(** Lines 170-180 of main.py; in [{"queue_enabled": True, **status}]
    an entry of [status] would win over the first one. *)
Definition queue_status (app : App) : M World (gmap string value) :=
  match sqs_handler app with
  | None => ret {[ "queue_enabled" := VBool false ]}
  | Some _ =>
      try_except
        (status <- get_queue_status ;;
         ret (status ∪ {[ "queue_enabled" := VBool true ]}))
        (fun e => ret {[ "queue_enabled" := VBool true;
                         "error" := VStrOf e ]})
  end.

End QueueStatus.

End Endpoints.

(** ** docker/app/main.py, lines 33-75: [lifespan] *)

Module Lifespan.

Import Main.

(** What the environment and the libraries answer during start-up. *)
Record Startup : Type := {
  torch_cuda_is_available : outcome bool;
  loader : ModelHandler.Loader;
  getenv_SQS_QUEUE_URL : option string;
  boto3_client : outcome unit;
  getenv_MLFLOW_TRACKING_URI : option string;
  mlflow_set_tracking_uri : outcome unit }.

Definition set_model_handler (h : option handler) (app : App) : App :=
  {| model_handler := h; sqs_handler := sqs_handler app;
     mlflow_logger := mlflow_logger app |}.

Definition set_sqs_handler (q : option SQSHandler) (app : App) : App :=
  {| model_handler := model_handler app; sqs_handler := q;
     mlflow_logger := mlflow_logger app |}.

Definition set_mlflow_logger (l : option MLflowLogger) (app : App) : App :=
  {| model_handler := model_handler app; sqs_handler := sqs_handler app;
     mlflow_logger := l |}.

(** [await model_handler.load_model()]: the expander that the global
    holds is the one that is loaded. *)
Definition load_model_in_place (L : ModelHandler.Loader) : M App unit :=
  fun app =>
    match model_handler app with
    | Some (Expander self) =>
        let (r, self') := ModelHandler.load_model L self in
        (r, set_model_handler (Some (Expander self')) app)
    | Some (MockModelHandler _) =>
        (Raise (AttributeError
           "'MockModelHandler' object has no attribute 'load_model'"), app)
    | None =>
        (Raise (AttributeError
           "'NoneType' object has no attribute 'load_model'"), app)
    end.

(** [SQSHandler(sqs_queue_url)] *)
Definition new_SQSHandler (E : Startup) (url : string) : M App SQSHandler :=
  call (boto3_client E) ;;; ret {| queue_url := url |}.

(** [MLflowLogger()]: what follows [mlflow.set_tracking_uri] is inside
    a [try] that swallows every exception. *)
Definition new_MLflowLogger (E : Startup) : M App MLflowLogger :=
  call (mlflow_set_tracking_uri E) ;;;
  ret {| tracking_uri :=
           match getenv_MLFLOW_TRACKING_URI E with
           | Some uri => uri
           | None => "http://localhost:5000"
           end |}.

(** Lines 40-53: the body of the [try]. *)
Definition startup_body (E : Startup) : M App unit :=
  cuda <- call (torch_cuda_is_available E) ;;
  modify (set_model_handler (Some (Expander (ModelHandler.init cuda)))) ;;;
  load_model_in_place (loader E) ;;;
  match getenv_SQS_QUEUE_URL E with
  | Some (String c url) =>
      q <- new_SQSHandler E (String c url) ;;
      modify (set_sqs_handler (Some q))
  | _ => ret tt
  end ;;;
  l <- new_MLflowLogger E ;;
  modify (set_mlflow_logger (Some l)).

(** Lines 54-68. *)
Definition startup_handler : M App unit :=
  app <- get ;;
  match model_handler app with
  | None => modify (set_model_handler (Some (MockModelHandler true)))
  | Some _ => ret tt
  end.

(** Lines 36-68: what [lifespan] does before it yields. *)
Definition startup (E : Startup) : M App unit :=
  try_except (startup_body E) (fun _ => startup_handler).

(** Lines 72-75: what [lifespan] does after the yield; the local mock
    has no [cleanup]. *)
Definition shutdown (R : Cleanup.Runtime) (app : App)
  : option (outcome unit * Cleanup.Instance) :=
  match model_handler app with
  | Some (Expander self) =>
      Some (Cleanup.cleanup R (Cleanup.of_expander self))
  | _ => None
  end.

(** The globals when the module has been imported, lines 29-31. *)
Definition globals0 : App :=
  {| model_handler := None; sqs_handler := None; mlflow_logger := None |}.

End Lifespan.

(** More values for the examples. *)
Module Fixture.

(** A machine where everything loads. *)
Definition all_up : Lifespan.Startup :=
  {| Lifespan.torch_cuda_is_available := Return false;
     Lifespan.loader :=
       {| ModelHandler.getenv_HF_TOKEN := Some "hf_token";
          ModelHandler.AutoTokenizer_from_pretrained :=
            Return (ModelHandler.HFTokenizer None (Some "<eos>"));
          ModelHandler.BitsAndBytesConfig := Return tt;
          ModelHandler.AutoModelForCausalLM_from_pretrained :=
            fun _ => Return ModelHandler.HFModel;
          ModelHandler.model_to := fun _ => Return ModelHandler.HFModel;
          ModelHandler.model_eval := fun _ => Return tt |};
     Lifespan.getenv_SQS_QUEUE_URL := Some "https://sqs.example/q";
     Lifespan.boto3_client := Return tt;
     Lifespan.getenv_MLFLOW_TRACKING_URI := None;
     Lifespan.mlflow_set_tracking_uri := Return tt |}.

(** A backend that answers with the prompt followed by a completion. *)
Definition echo_backend : ModelHandler.Backend :=
  {| ModelHandler.tokenize := fun _ => Return [1; 2; 3];
     ModelHandler.to_device := Return tt;
     ModelHandler.generate := fun ids _ => Return (ids ++ [4; 5]);
     ModelHandler.decode := fun _ =>
       Return "Original query: ML algos
Improved query: machine learning algorithms ";
     ModelHandler.randint := fun _ => [];
     ModelHandler.empty_cache := Return tt |}.

(** A backend whose [decode] depends on the tokens it is given: the
    tokens that [generate] makes of the prompt's decode to the prompt of
    "ML algos" followed by a completion, any others to nothing. *)
Definition token_backend : ModelHandler.Backend :=
  {| ModelHandler.tokenize := fun _ => Return [1; 2; 3];
     ModelHandler.to_device := Return tt;
     ModelHandler.generate := fun ids _ => Return (ids ++ [4; 5]);
     ModelHandler.decode := fun ids =>
       if bool_decide (ids = [1; 2; 3; 4; 5])
       then Return (ModelHandler.prompt_template "ML algos"
                    +:+ " machine learning algorithms ")
       else Return "";
     ModelHandler.randint := fun _ => [];
     ModelHandler.empty_cache := Return tt |}.

(** A machine on which the quantized model cannot be built and the
    plain one can. *)
Definition quantization_fails : ModelHandler.Loader :=
  {| ModelHandler.getenv_HF_TOKEN := Some "hf_token";
     ModelHandler.AutoTokenizer_from_pretrained :=
       Return (ModelHandler.HFTokenizer None (Some "<eos>"));
     ModelHandler.BitsAndBytesConfig := Return tt;
     ModelHandler.AutoModelForCausalLM_from_pretrained :=
       fun a => match a with
                | ModelHandler.Quantized =>
                    Raise (OtherException "bitsandbytes is not installed")
                | ModelHandler.Fallback => Return ModelHandler.HFModel
                end;
     ModelHandler.model_to := fun _ => Return ModelHandler.HFModel;
     ModelHandler.model_eval := fun _ => Return tt |}.

(** A machine without a GPU, for [cleanup]. *)
Definition cpu_runtime : Cleanup.Runtime :=
  {| Cleanup.cuda_is_available := false;
     Cleanup.cuda_empty_cache := Return tt |}.

End Fixture.

(** * Properties *)

(** ** Strings *)

Section StringFacts.

Import Py.

(** The built-ins on the inputs of the Python documentation and of the
    repository's tests. *)
Example py_slice_examples :
  slice 1 (-1) "hello" = "ell" /\ slice 0 200 "hello" = "hello"
  /\ slice 1 (-1) "h" = "" /\ slice (-3) 10 "hello" = "llo".
Proof. repeat split. Qed.

Example py_replace_examples :
  replace "aa" "b" "aaaaa" = "bba" /\ replace "" "-" "ab" = "-a-b-"
  /\ replace "algo" "algorithm" "algos and algo" = "algorithms and algorithm".
Proof. repeat split. Qed.

Example py_split_examples :
  split "  a bc  d " = ["a"; "bc"; "d"] /\ split "" = [] /\ split "   " = [].
Proof. repeat split. Qed.

Example py_strip_examples :
  strip "  a b  " = "a b" /\ strip "   " = "" /\ lower "ML Algos" = "ml algos".
Proof. repeat split. Qed.

Example py_last_field_examples :
  last_field "::" "a::b::c" = "c" /\ last_field "::" "abc" = "abc"
  /\ last_field "::" "abc::" = "".
Proof. repeat split. Qed.

Lemma app_cons (c : ascii) (a b : string) :
  String c a +:+ b = String c (a +:+ b).
Proof. reflexivity. Qed.

Lemma app_nil_l (b : string) : "" +:+ b = b.
Proof. reflexivity. Qed.

Lemma len_cons (c : ascii) (a : string) : len (String c a) = S (len a).
Proof. reflexivity. Qed.

Lemma len_app (a b : string) : len (a +:+ b) = (len a + len b)%nat.
Proof.
  induction a as [|c a IH]; [reflexivity|].
  rewrite app_cons, !len_cons, IH. reflexivity.
Qed.

Lemma app_empty_r (a : string) : a +:+ "" = a.
Proof.
  induction a as [|c a IH]; [reflexivity|]. now rewrite app_cons, IH.
Qed.

Lemma app_assoc_str (a b c : string) : (a +:+ b) +:+ c = a +:+ (b +:+ c).
Proof.
  induction a as [|x a IH]; [reflexivity|]. now rewrite !app_cons, IH.
Qed.

(** Putting a non-empty word in front of a text changes it. *)
Lemma prepend_differs (p q : string) : p <> "" -> p +:+ q <> q.
Proof.
  intros Hp Heq. apply (f_equal len) in Heq. rewrite len_app in Heq.
  destruct p; [congruence|]. rewrite len_cons in Heq. lia.
Qed.

Lemma len_take (n : nat) (s : string) : (len (take n s) <= n)%nat.
Proof.
  revert s. induction n as [|n IH]; intros [|c s]; unfold len in *; simpl; try lia.
  specialize (IH s). lia.
Qed.

Lemma len_take_le (n : nat) (s : string) : (len (take n s) <= len s)%nat.
Proof.
  revert s. induction n as [|n IH]; intros [|c s]; unfold len in *; simpl; try lia.
  specialize (IH s). lia.
Qed.

Lemma take_app_len (a b : string) : take (len a) (a +:+ b) = a.
Proof.
  induction a as [|c a IH]; [now destruct b|].
  rewrite app_cons, len_cons. simpl. now rewrite IH.
Qed.

Lemma len_lstrip (s : string) : (len (lstrip s) <= len s)%nat.
Proof.
  induction s as [|c s IH]; simpl; [lia|].
  destruct (isspace c); unfold len in *; simpl; lia.
Qed.

Lemma len_rstrip (s : string) : (len (rstrip s) <= len s)%nat.
Proof.
  induction s as [|c s IH]; simpl; [lia|].
  unfold len in *.
  destruct (rstrip s) eqn:E; [destruct (isspace c)|]; simpl in *; lia.
Qed.

Lemma len_strip (s : string) : (len (strip s) <= len s)%nat.
Proof.
  unfold strip. pose proof (len_rstrip (lstrip s)). pose proof (len_lstrip s). lia.
Qed.

Lemma len_slice_0 (n : nat) (s : string) :
  (len (slice 0 (Z.of_nat n) s) <= n)%nat.
Proof.
  unfold slice. etransitivity; [apply len_take|].
  unfold bound. destruct (Z.ltb_spec (Z.of_nat n) 0); lia.
Qed.

Lemma take_min (n : nat) (s : string) : take (Nat.min n (len s)) s = take n s.
Proof.
  revert s. induction n as [|n IH]; intros [|c s]; try reflexivity.
  rewrite len_cons. simpl. now rewrite IH.
Qed.

(** [s[:n]] is the first [n] characters of [s], or all of [s] when it
    has fewer. *)
Lemma slice_0_take (n : nat) (s : string) : slice 0 (Z.of_nat n) s = take n s.
Proof.
  unfold slice, bound. destruct (Z.ltb_spec (Z.of_nat n) 0); [lia|].
  change (0 <? 0) with false. cbv iota.
  replace (Z.to_nat (Z.max 0 (Z.min 0 (Z.of_nat (len s))))) with 0%nat by lia.
  replace (Z.to_nat (Z.max 0 (Z.min (Z.of_nat n) (Z.of_nat (len s)))))
    with (Nat.min n (len s)) by lia.
  rewrite Nat.sub_0_r. replace (drop 0 s) with s by now destruct s.
  apply take_min.
Qed.

Lemma len_take_exact (n : nat) (s : string) :
  (n <= len s)%nat -> len (take n s) = n.
Proof.
  revert s. induction n as [|n IH]; intros [|c s]; try reflexivity.
  - change (len "") with 0%nat. lia.
  - rewrite len_cons. intros H. simpl take. rewrite len_cons, IH; lia.
Qed.


Lemma lstrip_blank (ws : string) : blank ws = true -> lstrip ws = "".
Proof.
  induction ws as [|c ws IH]; simpl; [reflexivity|].
  intros [Hc Hws]%andb_prop. rewrite Hc. auto.
Qed.

Lemma lstrip_blank_app (ws s : string) :
  blank ws = true -> lstrip (ws +:+ s) = lstrip s.
Proof.
  induction ws as [|c ws IH]; [reflexivity|]. simpl.
  intros [Hc Hws]%andb_prop. rewrite Hc. auto.
Qed.

Lemma rstrip_blank (ws : string) : blank ws = true -> rstrip ws = "".
Proof.
  induction ws as [|c ws IH]; simpl; [reflexivity|].
  intros [Hc Hws]%andb_prop. rewrite (IH Hws), Hc. reflexivity.
Qed.

Lemma rstrip_app_blank (s ws : string) :
  blank ws = true -> rstrip (s +:+ ws) = rstrip s.
Proof.
  intros Hws. induction s as [|c s IH].
  - rewrite app_nil_l. now apply rstrip_blank.
  - rewrite app_cons. simpl. now rewrite IH.
Qed.

Lemma rstrip_snoc (s : string) (c : ascii) :
  isspace c = false ->
  rstrip (s +:+ String c "") = s +:+ String c "".
Proof.
  intros Hc. induction s as [|x s IH].
  - rewrite app_nil_l. simpl. now rewrite Hc.
  - rewrite app_cons. simpl. rewrite IH.
    destruct s; reflexivity.
Qed.

Lemma lstrip_same_len (s : string) : len (lstrip s) = len s -> lstrip s = s.
Proof.
  destruct s as [|c s]; simpl; [reflexivity|].
  destruct (isspace c); [|reflexivity].
  intros H. pose proof (len_lstrip s). unfold len in *; simpl in *; lia.
Qed.

Lemma strip_fixed (s : string) : strip s = s -> lstrip s = s /\ rstrip s = s.
Proof.
  unfold strip. intros H.
  assert (Hl : lstrip s = s).
  { apply lstrip_same_len. apply (f_equal len) in H.
    pose proof (len_rstrip (lstrip s)). pose proof (len_lstrip s). lia. }
  split; [exact Hl|]. now rewrite Hl in H.
Qed.

(** White space around a text that [strip] leaves alone is all that
    [strip] takes away. *)
Lemma strip_padded (ws1 core ws2 : string) :
  blank ws1 = true -> blank ws2 = true -> strip core = core ->
  strip (ws1 +:+ core +:+ ws2) = core.
Proof.
  intros H1 H2 [Hl Hr]%strip_fixed. unfold strip.
  rewrite lstrip_blank_app by exact H1.
  destruct core as [|c core].
  - rewrite app_nil_l, lstrip_blank by exact H2. reflexivity.
  - assert (Hc : isspace c = false).
    { simpl in Hl. destruct (isspace c); [|reflexivity].
      apply (f_equal len) in Hl. pose proof (len_lstrip core).
      unfold len in *; simpl in *; lia. }
    rewrite app_cons. simpl lstrip. rewrite Hc, <- app_cons.
    now rewrite rstrip_app_blank.
Qed.

Lemma endswith_app (a p : string) : endswith p (a +:+ p) = true.
Proof.
  induction a as [|c a IH].
  - rewrite app_nil_l. destruct p; simpl; [reflexivity|].
    now rewrite Ascii.eqb_refl, String.eqb_refl.
  - rewrite app_cons. simpl. rewrite IH. apply orb_true_r.
Qed.

Lemma contains_cons (old : string) (c : ascii) (s : string) :
  contains old (String c s) = false ->
  startswith old (String c s) = false /\ contains old s = false.
Proof. simpl. now intros [H1 H2]%orb_false_elim. Qed.

(** Where [old] does not occur, [replace] changes nothing. *)
Lemma replace_absent (old new s : string) :
  old <> "" -> contains old s = false -> replace old new s = s.
Proof.
  intros Hold. destruct old as [|a old]; [contradiction|]. unfold replace.
  induction s as [|c s IH]; [reflexivity|].
  intros [Hhere Hlater]%contains_cons.
  change (replace_from 0 (String a old) new (String c s))
    with (if startswith (String a old) (String c s)
          then new +:+ replace_from (len (String a old) - 1) (String a old) new s
          else String c (replace_from 0 (String a old) new s)).
  rewrite Hhere. f_equal. now apply IH.
Qed.

End StringFacts.

(** ** Response cleaning *)

Section CleanResponse.

Import Py ModelHandler.

(** Whatever comes in, at most 200 characters come out. *)
Lemma clean_response_bound (s : string) : (len (_clean_response s) <= 200)%nat.
Proof.
  unfold _clean_response.
  set (r := if startswith dquote (strip s) && endswith dquote (strip s)
            then slice 1 (-1) (strip s) else strip s).
  destruct (Z.ltb_spec 200 (Z.of_nat (len r))) as [Hlong|Hshort]; [|lia].
  etransitivity; [apply len_strip|]. apply (len_slice_0 200).
Qed.

(** A text that is neither padded nor quoted nor too long is what is
    left of it when white space is put around it. *)
Lemma clean_response_trims (ws1 core ws2 : string) :
  blank ws1 = true -> blank ws2 = true -> strip core = core ->
  startswith dquote core && endswith dquote core = false ->
  (len core <= 200)%nat ->
  _clean_response (ws1 +:+ core +:+ ws2) = core.
Proof.
  intros H1 H2 Hcore Hq Hlen. unfold _clean_response.
  rewrite strip_padded by assumption. rewrite Hq.
  destruct (Z.ltb_spec 200 (Z.of_nat (len core))); [lia|reflexivity].
Qed.

Lemma slice_inner (c d : ascii) (body : string) :
  slice 1 (-1) (String c (body +:+ String d "")) = body.
Proof.
  unfold slice, bound. rewrite len_cons, len_app, len_cons.
  change (len "") with 0%nat.
  replace (Z.to_nat _ - Z.to_nat _)%nat with (len body).
  - replace (Z.to_nat _) with 1%nat.
    + simpl drop. apply take_app_len.
    + destruct (Z.ltb_spec 1 0); lia.
  - destruct (Z.ltb_spec (-1) 0); destruct (Z.ltb_spec 1 0); lia.
Qed.

(** One pair of quotes around a text of at most 200 characters is
    taken off, with the white space around the quotes; the text is
    returned as it is. *)
Lemma clean_response_unquotes (ws1 body ws2 : string) :
  blank ws1 = true -> blank ws2 = true -> (len body <= 200)%nat ->
  _clean_response (ws1 +:+ (dquote +:+ body +:+ dquote) +:+ ws2) = body.
Proof.
  intros H1 H2 Hlen. unfold _clean_response.
  assert (Hcore : strip (dquote +:+ body +:+ dquote) = dquote +:+ body +:+ dquote).
  { unfold strip, dquote. rewrite app_cons, app_nil_l.
    change (lstrip (String "034" (body +:+ String "034" "")))
      with (String "034"%char (body +:+ String "034" "")).
    rewrite <- app_cons. now apply rstrip_snoc. }
  rewrite strip_padded by assumption.
  assert (Hq : startswith dquote (dquote +:+ body +:+ dquote)
               && endswith dquote (dquote +:+ body +:+ dquote) = true).
  { apply andb_true_intro. split; [reflexivity|].
    rewrite <- app_assoc_str. apply endswith_app. }
  rewrite Hq.
  assert (Hs : slice 1 (-1) (dquote +:+ body +:+ dquote) = body)
    by exact (slice_inner "034" "034" body).
  rewrite Hs.
  destruct (Z.ltb_spec 200 (Z.of_nat (len body))); [lia|reflexivity].
Qed.

(** The quotes around a body are found and taken off. *)
Lemma quoted_inner (body : string) :
  strip (dquote +:+ body +:+ dquote) = dquote +:+ body +:+ dquote
  /\ startswith dquote (dquote +:+ body +:+ dquote)
     && endswith dquote (dquote +:+ body +:+ dquote) = true
  /\ slice 1 (-1) (dquote +:+ body +:+ dquote) = body.
Proof.
  split; [|split].
  - unfold strip, dquote. rewrite app_cons, app_nil_l.
    change (lstrip (String "034" (body +:+ String "034" "")))
      with (String "034"%char (body +:+ String "034" "")).
    rewrite <- app_cons. now apply rstrip_snoc.
  - apply andb_true_intro. split; [reflexivity|].
    rewrite <- app_assoc_str. apply endswith_app.
  - exact (slice_inner "034" "034" body).
Qed.

(** Of a text longer than 200 characters, neither padded nor quoted,
    the first 200 characters are kept, and the white space that the cut
    leaves at their ends is taken off. *)
Lemma clean_response_truncates (ws1 core ws2 : string) :
  blank ws1 = true -> blank ws2 = true -> strip core = core ->
  startswith dquote core && endswith dquote core = false ->
  (200 < len core)%nat ->
  _clean_response (ws1 +:+ core +:+ ws2) = strip (take 200 core).
Proof.
  intros H1 H2 Hcore Hq Hlen. unfold _clean_response.
  rewrite strip_padded by assumption. rewrite Hq.
  destruct (Z.ltb_spec 200 (Z.of_nat (len core))); [|lia].
  now rewrite (slice_0_take 200).
Qed.

(** The same of a quoted body longer than 200 characters: the quotes go
    first, then the cut. *)
Lemma clean_response_unquotes_truncates (ws1 body ws2 : string) :
  blank ws1 = true -> blank ws2 = true -> (200 < len body)%nat ->
  _clean_response (ws1 +:+ (dquote +:+ body +:+ dquote) +:+ ws2)
  = strip (take 200 body).
Proof.
  intros H1 H2 Hlen. unfold _clean_response.
  destruct (quoted_inner body) as (Hcore & Hq & Hs).
  rewrite strip_padded by assumption. rewrite Hq, Hs.
  destruct (Z.ltb_spec 200 (Z.of_nat (len body))); [|lia].
  now rewrite (slice_0_take 200).
Qed.

(** When the cut falls between two characters that are not white space
    and the text does not begin with white space, exactly the first 200
    characters are returned. *)
Lemma strip_take_exact (n : nat) (s : string) :
  (n <= len s)%nat -> strip (take n s) = take n s ->
  len (strip (take n s)) = n.
Proof. intros Hn ->. now apply len_take_exact. Qed.

(** C6: [_clean_response] trims the white space around the response,
    takes one pair of enclosing double quotes off and cuts what is
    longer than 200 characters: the quoted ["abc"] gives [abc], the
    padded [ spaced ] gives [spaced], and an input of 300 characters
    gives at most 200.  What the cut keeps is said too: of a text longer
    than 200 characters (after the trimming and the unquoting) the
    result is its first 200 characters, trimmed again; 300 letters [a]
    give 200 letters [a], and a text whose characters 199 and 200 are
    spaces gives its first 198 characters. *)
Theorem clean_response_spec :
  _clean_response (dquote +:+ "abc" +:+ dquote) = "abc"
  /\ _clean_response " spaced " = "spaced"
  /\ (forall s, len s = 300%nat -> (len (_clean_response s) <= 200)%nat)
  /\ (forall s, (len (_clean_response s) <= 200)%nat)
  /\ (forall ws1 core ws2,
        blank ws1 = true -> blank ws2 = true -> strip core = core ->
        startswith dquote core && endswith dquote core = false ->
        (len core <= 200)%nat ->
        _clean_response (ws1 +:+ core +:+ ws2) = core)
  /\ (forall ws1 body ws2,
        blank ws1 = true -> blank ws2 = true -> (len body <= 200)%nat ->
        _clean_response (ws1 +:+ (dquote +:+ body +:+ dquote) +:+ ws2) = body)
  /\ (forall ws1 core ws2,
        blank ws1 = true -> blank ws2 = true -> strip core = core ->
        startswith dquote core && endswith dquote core = false ->
        (200 < len core)%nat ->
        _clean_response (ws1 +:+ core +:+ ws2) = strip (take 200 core))
  /\ (forall ws1 body ws2,
        blank ws1 = true -> blank ws2 = true -> (200 < len body)%nat ->
        _clean_response (ws1 +:+ (dquote +:+ body +:+ dquote) +:+ ws2)
        = strip (take 200 body))
  /\ (forall core,
        strip core = core ->
        startswith dquote core && endswith dquote core = false ->
        (200 < len core)%nat ->
        strip (take 200 core) = take 200 core ->
        _clean_response core = take 200 core
        /\ len (_clean_response core) = 200%nat)
  /\ _clean_response (Sample.times "a" 300) = Sample.times "a" 200
  /\ _clean_response (Sample.times "a" 198 +:+ "  " +:+ Sample.times "b" 100)
     = Sample.times "a" 198.
Proof.
  split; [reflexivity|]. split; [reflexivity|].
  split; [intros s _; apply clean_response_bound|].
  split; [apply clean_response_bound|].
  split; [apply clean_response_trims|].
  split; [apply clean_response_unquotes|].
  split; [apply clean_response_truncates|].
  split; [apply clean_response_unquotes_truncates|].
  split; [|split; vm_compute; reflexivity].
  intros core Hcore Hq Hlen Hcut.
  pose proof (clean_response_truncates "" core "" eq_refl eq_refl Hcore Hq Hlen)
    as Hrun.
  rewrite app_nil_l, app_empty_r, Hcut in Hrun. rewrite Hrun.
  split; [reflexivity|]. apply len_take_exact. lia.
Qed.

Lemma clean_response_spec_witness :
  len (Sample.times "a" 300) = 300%nat
  /\ (len (_clean_response (Sample.times "a" 300)) <= 200)%nat
  /\ _clean_response ("  " +:+ "deep learning" +:+ " ") = "deep learning"
  /\ _clean_response
       (" " +:+ (dquote +:+ "deep learning" +:+ dquote) +:+ "") = "deep learning"
  /\ _clean_response (" " +:+ (Sample.times "ab " 100 +:+ "c") +:+ " ")
     = strip (take 200 (Sample.times "ab " 100 +:+ "c"))
  /\ _clean_response
       ("" +:+ (dquote +:+ Sample.times " ab" 100 +:+ dquote) +:+ " ")
     = strip (take 200 (Sample.times " ab" 100))
  /\ len (_clean_response (Sample.times "abc" 100)) = 200%nat.
Proof.
  destruct clean_response_spec
    as (_ & _ & Hlong & _ & Htrim & Hquote & Hcut & Hqcut & Hexact & _ & _).
  split; [reflexivity|].
  split; [apply Hlong; reflexivity|].
  split; [apply Htrim; try reflexivity; vm_compute; lia|].
  split; [apply Hquote; try reflexivity; vm_compute; lia|].
  split; [apply (Hcut " " (Sample.times "ab " 100 +:+ "c") " ");
          try reflexivity; vm_compute; lia|].
  split; [apply (Hqcut "" (Sample.times " ab" 100) " ");
          try reflexivity; vm_compute; lia|].
  apply (Hexact (Sample.times "abc" 100)); try reflexivity; vm_compute; lia.
Defined.

(** C10: a lone double quote starts and ends with a quote, so it is
    taken off and nothing is left. *)
Theorem clean_response_lone_quote :
  startswith dquote dquote = true
  /\ endswith dquote dquote = true
  /\ _clean_response dquote = "".
Proof. repeat split. Qed.

End CleanResponse.

(** ** The mock expansion *)

Section MockExpansion.

Import Py ModelHandler.

(** No entry of the table maps a phrase to itself. *)
Lemma expansions_changes (q v : string) : expansions !! q = Some v -> v <> q.
Proof.
  unfold expansions. intros H%elem_of_list_to_map_2.
  repeat (apply elem_of_cons in H as [H|H]; [inversion H; discriminate|]).
  now apply elem_of_nil in H.
Qed.

(** What a query outside the table is turned into. *)
Lemma mock_outside_table (self : LlamaQueryExpander) (q : string) (w : World) :
  expansions !! q = None ->
  fst (_expand_with_mock_model self q w) =
  Return (if String.eqb (add_context q (repairs q)) q
          then "enhanced " +:+ q
          else add_context q (repairs q)).
Proof. intros H. unfold _expand_with_mock_model. rewrite H. reflexivity. Qed.

(** C3: the mock expansion always returns, and what it returns is never
    the query itself; when the table and the rules leave the query as
    it is, the word "enhanced" is put in front of it. *)
Theorem mock_expansion_differs
    (self : LlamaQueryExpander) (q : string) (w : World) :
  exists out w',
    _expand_with_mock_model self q w = (Return out, w')
    /\ out <> q
    /\ (expansions !! q = None -> add_context q (repairs q) = q ->
        out = "enhanced " +:+ q).
Proof.
  unfold _expand_with_mock_model.
  destruct (expansions !! q) as [v|] eqn:E.
  - exists v, w. repeat split; [|discriminate].
    now apply expansions_changes.
  - eexists _, _. split; [reflexivity|].
    destruct (String.eqb_spec (add_context q (repairs q)) q) as [Heq|Hne].
    + split; [|reflexivity]. now apply prepend_differs.
    + split; [exact Hne|]. intros _ Heq. contradiction.
Qed.

(** C4: the mock expansion uses no randomness: it returns the same
    text for the same query whatever the expander and the world it is
    called in, and it takes nothing from the random generator. *)
Theorem mock_expansion_deterministic
    (self1 self2 : LlamaQueryExpander) (w1 w2 : World) (q : string) :
  fst (_expand_with_mock_model self1 q w1)
  = fst (_expand_with_mock_model self2 q w2)
  /\ (exists out, fst (_expand_with_mock_model self1 q w1) = Return out)
  /\ random_draws (snd (_expand_with_mock_model self1 q w1)) = random_draws w1.
Proof.
  unfold _expand_with_mock_model.
  destruct (expansions !! q); repeat split; eexists; reflexivity.
Qed.

(** A short single token outside the table gets the suffix, and the
    result is returned as it is. *)
Lemma mock_short_token (self : LlamaQueryExpander) (q : string) (w : World) :
  expansions !! q = None -> length (split q) = 1%nat -> (len q <= 4)%nat ->
  fst (_expand_with_mock_model self q w)
  = Return (repairs q +:+ " techniques and applications").
Proof.
  intros Htab Htok Hlen. rewrite mock_outside_table by exact Htab.
  unfold add_context. rewrite Htok.
  replace (len q <=? 4)%nat with true by (symmetry; apply Nat.leb_le; exact Hlen).
  simpl andb. cbv iota.
  destruct (String.eqb_spec (repairs q +:+ " techniques and applications") q)
    as [Heq|Hne]; [|reflexivity].
  apply (f_equal len) in Heq. rewrite len_app in Heq.
  change (len " techniques and applications") with 28%nat in Heq. lia.
Qed.

(** C5: "ML algos" is in the table, "xyz" is a single token of at most
    four characters and gets the suffix, and "already fine phrase" is
    left alone by every rule and gets the marker. *)
Theorem mock_expansion_examples (self : LlamaQueryExpander) (w : World) :
  fst (_expand_with_mock_model self "ML algos" w)
    = Return "machine learning algorithms"
  /\ expansions !! "ML algos" = Some "machine learning algorithms"
  /\ fst (_expand_with_mock_model self "xyz" w)
    = Return "xyz techniques and applications"
  /\ fst (_expand_with_mock_model self "already fine phrase" w)
    = Return "enhanced already fine phrase"
  /\ add_context "already fine phrase" (repairs "already fine phrase")
    = "already fine phrase"
  /\ (forall q,
        expansions !! q = None -> length (split q) = 1%nat -> (len q <= 4)%nat ->
        fst (_expand_with_mock_model self q w)
        = Return (repairs q +:+ " techniques and applications")).
Proof.
  split; [reflexivity|]. split; [reflexivity|].
  split; [reflexivity|]. split; [reflexivity|].
  split; [reflexivity|]. intros q. apply mock_short_token.
Qed.

Lemma mock_expansion_examples_witness :
  fst (_expand_with_mock_model Sample.fresh "sci" Sample.world0)
  = Return "science techniques and applications".
Proof.
  destruct (mock_expansion_examples Sample.fresh Sample.world0)
    as (_ & _ & _ & _ & _ & Hshort).
  exact (Hshort "sci" eq_refl eq_refl (le_S _ _ (le_n 3))).
Defined.

End MockExpansion.

(** ** The five repairs *)

Section Repairs.

Import Py ModelHandler.

(** Against C9 as it is worded.
    The query "intro to data sci" has four words, so its "sci" stays;
    the query "algo vs algorithm" holds "algorithm", so its "algo"
    stays.  Both hold the trigger of a repair that is not applied. *)
Lemma repairs_guard_counterexample :
  contains "sci" (lower "intro to data sci") = true
  /\ repair_sci "intro to data sci" (lower "intro to data sci") "intro to data sci"
     = "intro to data sci"
  /\ replace "sci" "science" "intro to data sci" = "intro to data science"
  /\ repairs "intro to data sci" <> AsSpecified.repairs "intro to data sci"
  /\ fst (_expand_with_mock_model Sample.fresh "intro to data sci" Sample.world0)
     = Return "enhanced intro to data sci"
  /\ contains "algo" (lower "algo vs algorithm") = true
  /\ repair_algo (lower "algo vs algorithm") "algo vs algorithm"
     = "algo vs algorithm"
  /\ fst (_expand_with_mock_model Sample.fresh "algo vs algorithm" Sample.world0)
     = Return "enhanced algo vs algorithm".
Proof. repeat split; try reflexivity. vm_compute. discriminate. Qed.

(** C9, amended: whether a repair is applied is decided on the query
    alone, so the repairs do not depend on one another: whatever the
    text [e] reached so far, "enginer", "lerning" and "vison" are
    replaced in it when the lower-cased query holds them, "algo" when
    the lower-cased query holds it and does not hold "algorithm", and
    "sci" when the lower-cased query holds it and the query has at
    most two words.  Several repairs can apply to one query, and on
    the queries of at most two words that do not hold "algorithm" the
    repairs are the ones of the specification. *)
Theorem repairs_guarded (q e : string) :
  (contains "algo" (lower q) = true ->
   contains "algorithm" (lower q) = false ->
   repair_algo (lower q) e
   = replace "algos" "algorithms" (replace "algo" "algorithm" e))
  /\ (contains "enginer" (lower q) = true ->
      repair_enginer (lower q) e = replace "enginer" "engineer" e)
  /\ (contains "lerning" (lower q) = true ->
      repair_lerning (lower q) e = replace "lerning" "learning" e)
  /\ (contains "vison" (lower q) = true ->
      repair_vison (lower q) e = replace "vison" "vision" e)
  /\ (contains "sci" (lower q) = true ->
      (length (split q) <= 2)%nat ->
      repair_sci q (lower q) e = replace "sci" "science" e)
  /\ repairs q
     = repair_sci q (lower q)
         (repair_vison (lower q)
            (repair_lerning (lower q)
               (repair_enginer (lower q) (repair_algo (lower q) q))))
  /\ (contains "algorithm" (lower q) = false ->
      (length (split q) <= 2)%nat ->
      repairs q = AsSpecified.repairs q)
  /\ repairs "deep lerning enginer" = "deep learning engineer"
  /\ repairs "algos for computer vison" = "algorithms for computer vision".
Proof.
  split; [intros H1 H2; unfold repair_algo; rewrite H1, H2; reflexivity|].
  split; [intros H; unfold repair_enginer; rewrite H; reflexivity|].
  split; [intros H; unfold repair_lerning; rewrite H; reflexivity|].
  split; [intros H; unfold repair_vison; rewrite H; reflexivity|].
  split; [intros H Hwords%Nat.leb_le; unfold repair_sci;
          rewrite H, Hwords; reflexivity|].
  split; [reflexivity|].
  split; [|split; reflexivity].
  intros Hno Hwords%Nat.leb_le.
  unfold repairs, AsSpecified.repairs, AsSpecified.repair, repair_algo,
    repair_enginer, repair_lerning, repair_vison, repair_sci.
  rewrite Hno, Hwords. cbn [negb]. rewrite !andb_true_r.
  destruct (contains "algo" (lower q)); reflexivity.
Qed.

Lemma repairs_guarded_witness :
  repair_algo (lower "my Algos") "my algos" = "my algorithms"
  /\ repair_enginer (lower "ML enginer") "ML enginer" = "ML engineer"
  /\ repair_lerning (lower "deep lerning models") "deep lerning models"
     = "deep learning models"
  /\ repair_vison (lower "3d vison") "3d vison" = "3d vision"
  /\ repair_sci "data sci" (lower "data sci") "data sci" = "data science".
Proof.
  split; [exact (proj1 (repairs_guarded "my Algos" "my algos") eq_refl eq_refl)|].
  split; [exact (proj1 (proj2 (repairs_guarded "ML enginer" "ML enginer")) eq_refl)|].
  split; [exact (proj1 (proj2 (proj2
            (repairs_guarded "deep lerning models" "deep lerning models"))) eq_refl)|].
  split; [exact (proj1 (proj2 (proj2 (proj2
            (repairs_guarded "3d vison" "3d vison")))) eq_refl)|].
  exact (proj1 (proj2 (proj2 (proj2 (proj2
            (repairs_guarded "data sci" "data sci")))))
           eq_refl (le_n 2)).
Defined.

End Repairs.

(** ** Loading the model *)

Section Loading.

Import ModelHandler.

(** A sequence returns only if its first part returns. *)
Lemma bind_Return {S A B} (m : M S A) (k : A -> M S B) (s s' : S) (b : B) :
  bind m k s = (Return b, s') ->
  exists a s1, m s = (Return a, s1) /\ k a s1 = (Return b, s').
Proof.
  unfold bind. destruct (m s) as [[a|e] s1]; [|discriminate].
  intros H. now exists a, s1.
Qed.

Lemma bind_step {S A B} (m : M S A) (k : A -> M S B) (s s1 : S) (a : A) :
  m s = (Return a, s1) -> bind m k s = k a s1.
Proof. unfold bind. now intros ->. Qed.

(** Case analysis on what a library call answers, in a goal about a
    computation that returned. *)
Ltac ask o := destruct o; cbn; try discriminate.

Lemma load_tokenizer_Return (L : Loader) (s s' : LlamaQueryExpander) (u : unit) :
  load_tokenizer L s = (Return u, s') ->
  tokenizer s' <> None /\ model s' = model s.
Proof.
  unfold load_tokenizer, try_except, bind, call, modify, raise, ret. cbn.
  ask (AutoTokenizer_from_pretrained L).
  destruct a as [[pad|] eos|]; cbn; intros [= _ <-]; now split.
Qed.

Lemma build_model_Return (L : Loader) (s s' : LlamaQueryExpander) (u : unit) :
  try_except (load_quantized L) (fun _ => load_fallback L) s = (Return u, s') ->
  model s' <> None /\ tokenizer s' = tokenizer s.
Proof.
  unfold load_quantized, load_fallback, try_except, bind, call, modify, get.
  cbn.
  assert (Hfallback : forall s0,
    tokenizer s0 = tokenizer s ->
    match AutoModelForCausalLM_from_pretrained L Fallback with
    | Return a =>
        match model_to L Fallback with
        | Return a0 =>
            (model_eval L Fallback, set_model (Some a0) (set_model (Some a) s0))
        | Raise e0 => (Raise e0, set_model (Some a) s0)
        end
    | Raise e0 => (Raise e0, s0)
    end = (Return u, s') ->
    model s' <> None /\ tokenizer s' = tokenizer s).
  { intros s0 Hs0.
    ask (AutoModelForCausalLM_from_pretrained L Fallback).
    ask (model_to L Fallback).
    intros [= _ <-]. now split. }
  destruct (AutoModelForCausalLM_from_pretrained L Quantized) as [m|e]; cbn;
    [|now apply Hfallback].
  destruct (device s); cbn.
  - destruct (model_eval L Quantized); cbn;
      [intros [= _ <-]; now split | now apply Hfallback].
  - destruct (model_to L Quantized) as [m'|e]; cbn; [|now apply Hfallback].
    destruct (model_eval L Quantized); cbn;
      [intros [= _ <-]; now split | now apply Hfallback].
Qed.

(** When the body of the [try] completes, the model and the tokenizer
    are set and the flag is up. *)
Lemma load_model_body_ready (L : Loader) (self s : LlamaQueryExpander) :
  load_model_body L self = (Return tt, s) ->
  ready s = true /\ model s <> None /\ tokenizer s <> None.
Proof.
  unfold load_model_body.
  intros (u1 & s1 & Htoken & H)%bind_Return.
  apply bind_Return in H as (u2 & s2 & Htok & H).
  apply bind_Return in H as (u3 & s3 & Hbnb & H).
  apply bind_Return in H as (u4 & s4 & Hmodel & H).
  injection H as <-.
  apply load_tokenizer_Return in Htok as [Htok _].
  apply build_model_Return in Hmodel as [Hmodel Hkeep].
  assert (s3 = s2) as -> by (unfold call in Hbnb; congruence).
  cbn. rewrite Hkeep. auto.
Qed.

(** After [_create_mock_model] the expander holds the two mocks and
    the flag is up, whatever it held before. *)
Lemma create_mock_model_ready (self : LlamaQueryExpander) :
  _create_mock_model self
  = (Return tt,
     {| model := Some MockModel; tokenizer := Some MockTokenizer;
        device := device self; ready := true |}).
Proof. reflexivity. Qed.

(** C7: [load_model] never raises and always leaves the expander ready:
    when any step of the construction raises, the handler installs the
    mock model and the mock tokenizer and sets the flag, and when no
    step raises the flag is set on the loaded model. *)
Theorem load_model_always_ready (L : Loader) (self : LlamaQueryExpander) :
  exists self',
    load_model L self = (Return tt, self')
    /\ is_ready self' = true
    /\ (forall e s, load_model_body L self = (Raise e, s) ->
        self' = {| model := Some MockModel; tokenizer := Some MockTokenizer;
                   device := device s; ready := true |})
    /\ (forall s, load_model_body L self = (Return tt, s) -> self' = s).
Proof.
  unfold load_model, try_except.
  destruct (load_model_body L self) as [[[]|e] s] eqn:E.
  - exists s. destruct (load_model_body_ready _ _ _ E) as (Hr & Hm & _).
    repeat split.
    + unfold is_ready. rewrite Hr. now rewrite bool_decide_eq_true_2.
    + discriminate.
    + now intros ? [= <-].
  - eexists. split; [apply create_mock_model_ready|].
    repeat split.
    + now intros ? ? [= _ <-].
    + discriminate.
Qed.

(** Without a token the tokenizer is never asked for, and the expander
    ends on the mocks. *)
Example load_model_no_token :
  load_model Sample.no_token Sample.fresh
  = (Return tt,
     {| model := Some MockModel; tokenizer := Some MockTokenizer;
        device := cpu; ready := true |})
  /\ load_model_body Sample.no_token Sample.fresh
     = (Raise (ValueError "Hugging Face token is required"), Sample.fresh).
Proof. split; reflexivity. Qed.

End Loading.

(** ** Failures of the generation path *)

Section FailureIsolation.

Import ModelHandler.

(** The mock expansion returns, and the text it returns depends on the
    query only. *)
Lemma mock_total (q : string) :
  exists out, forall self w,
    exists w', _expand_with_mock_model self q w = (Return out, w').
Proof.
  unfold _expand_with_mock_model. destruct (expansions !! q) as [v|].
  - exists v. intros _ w. now exists w.
  - eexists. intros _ w. eexists. reflexivity.
Qed.

(** When the body of the model path raises in a ready expander,
    [expand_query] returns what the mock expansion returns. *)
Lemma expand_query_absorbs
    (self : LlamaQueryExpander) (B : Backend) (q : string)
    (w w1 : World) (e : exn) :
  ready self = true ->
  real_model_body self B q w = (Raise e, w1) ->
  exists out w',
    expand_query self B q w = (Return out, w')
    /\ forall self0 w0, fst (_expand_with_mock_model self0 q w0) = Return out.
Proof.
  intros Hready Hbody. destruct (mock_total q) as [out Hout].
  exists out.
  assert (Hfst : forall self0 w0,
             fst (_expand_with_mock_model self0 q w0) = Return out).
  { intros self0 w0. destruct (Hout self0 w0) as [w' ->]. reflexivity. }
  unfold expand_query. rewrite Hready. cbn.
  unfold try_except, _expand_with_real_model, try_except.
  destruct (has_generate (model self) && has_decode (tokenizer self)).
  - rewrite Hbody. destruct (Hout self w1) as [w' ->]. now exists w'.
  - destruct (Hout self w) as [w' ->]. now exists w'.
Qed.

(** C2: when the model path raises, whatever the exception and the
    step that raised it, [expand_query] raises nothing and returns the
    mock expansion of the same query; a request served by such an
    expander is answered with status 200 and that mock expansion. *)
Theorem generation_failure_is_absorbed
    (self : LlamaQueryExpander) (B : Backend) (q : string) :
  ready self = true ->
  (forall w e w1,
     real_model_body self B q w = (Raise e, w1) ->
     exists out w',
       expand_query self B q w = (Return out, w')
       /\ fst (_expand_with_mock_model self q w) = Return out)
  /\ (forall app sv queue w,
        Main.model_handler app = Some (Main.Expander self) ->
        model self <> None ->
        queue = false \/ Main.sqs_handler app = None ->
        (forall w0, exists e w1, real_model_body self B q w0 = (Raise e, w1)) ->
        exists resp w',
          Main.expand_query app sv B
            {| Main.query := q; Main.use_queue := queue |} w
          = (Return resp, w')
          /\ Main.status_code (fst (Main.expand_query app sv B
               {| Main.query := q; Main.use_queue := queue |} w)) = 200%nat
          /\ fst (_expand_with_mock_model self q w)
             = Return (Main.expanded_query resp)
          /\ Main.original_query resp = q
          /\ Main.queued resp = false).
Proof.
  intros Hready. split.
  - intros w e w1 Hbody.
    destruct (expand_query_absorbs self B q w w1 e Hready Hbody)
      as (out & w' & Hrun & Hmock).
    exists out, w'. split; [exact Hrun|apply Hmock].
  - intros app sv queue w Happ Hmodel Hqueue Hfails.
    assert (Hgate : (queue && bool_decide (Main.sqs_handler app <> None)) = false).
    { destruct Hqueue as [->| ->]; [reflexivity|].
      rewrite bool_decide_eq_false_2 by tauto. apply andb_false_r. }
    assert (His : is_ready self = true).
    { unfold is_ready. rewrite Hready. now rewrite bool_decide_eq_true_2. }
    unfold Main.expand_query, Main.time, Main.REQUEST_COUNT_inc, bind, modify,
      try_except. cbn.
    rewrite Happ. cbn. rewrite His, Hgate. cbn.
    unfold Main.process_immediately, Main.call_engine, bind, modify. cbn.
    match goal with
    | |- context [expand_query self B q ?w2] =>
        destruct (Hfails w2) as (e & w1 & Hbody);
        destruct (expand_query_absorbs self B q w2 w1 e Hready Hbody)
          as (out & w' & -> & Hmock)
    end.
    rewrite (Hmock self w). cbn.
    destruct (Main.mlflow_logger app); cbn; eexists _, _; repeat split.
Qed.

Lemma generation_failure_is_absorbed_witness :
  real_model_body Sample.loaded Sample.failing_backend "ML enginer" Sample.world0
  = (Raise (RuntimeError "CUDA out of memory"),
     snd (torch_draw Sample.world0))
  /\ exists w',
       expand_query Sample.loaded Sample.failing_backend "ML enginer" Sample.world0
       = (Return "ML engineer", w').
Proof.
  split; [reflexivity|].
  destruct (proj1 (generation_failure_is_absorbed
                     Sample.loaded Sample.failing_backend "ML enginer" eq_refl)
              Sample.world0 _ _ eq_refl) as (out & w' & Hrun & Hmock).
  exists w'. rewrite Hrun. f_equal. f_equal.
  vm_compute in Hmock. congruence.
Defined.

(** X1: after [_create_mock_model] both mocks have the method asked for,
    so a request enters the model path; the plain [dict] of the mock
    tokenizer has no [to] method, and the mock expansion is reached
    through the handler, after one draw from the random generator. *)
Lemma mock_objects_served_by_handler
    (dev : device_t) (B : Backend) (q : string) (w : World) :
  real_model_body
    {| model := Some MockModel; tokenizer := Some MockTokenizer;
       device := dev; ready := true |} B q w
  = (Raise (AttributeError "'dict' object has no attribute 'to'"),
     snd (torch_draw w))
  /\ expand_query
       {| model := Some MockModel; tokenizer := Some MockTokenizer;
          device := dev; ready := true |} B q w
     = _expand_with_mock_model
         {| model := Some MockModel; tokenizer := Some MockTokenizer;
            device := dev; ready := true |} q (snd (torch_draw w)).
Proof.
  split; [reflexivity|].
  unfold expand_query, _expand_with_real_model, try_except. cbn.
  unfold _expand_with_mock_model.
  destruct (expansions !! q); reflexivity.
Qed.

End FailureIsolation.

(** ** The handler of [POST /expand] *)

Section Gateway.

Import Main.

Ltac run_handler :=
  unfold expand_query, not_ready, queue_request, sqs_send_message, time,
    REQUEST_COUNT_inc, ERROR_COUNT_inc, try_except, bind, modify, raise, ret;
  cbn.

(** C1: a request that arrives while the model handler is absent or
    not ready never reaches the model handler; the 503 raised for it
    is caught by the [except Exception] of the handler, so the answer
    of the code has status 500, with the error counted twice. *)
Theorem not_ready_request_answer
    (app : App) (sv : Services) (B : ModelHandler.Backend)
    (request : QueryRequest) (w : World) :
  model_handler app = None
  \/ (exists h, model_handler app = Some h /\ handler_is_ready h = false) ->
  exists w',
    expand_query app sv B request w
    = (Raise (HTTPException 500
                (StrOf (HTTPException 503 (Detail "Model not ready")))), w')
    /\ status_code (fst (expand_query app sv B request w)) = 500%nat
    /\ engine_calls w' = engine_calls w
    /\ ERROR_COUNT w' = S (S (ERROR_COUNT w))
    /\ REQUEST_COUNT w' = S (REQUEST_COUNT w).
Proof.
  intros [Hnone|(h & Hsome & Hnot)]; run_handler.
  - rewrite Hnone. cbn. eexists. repeat split.
  - rewrite Hsome, Hnot. cbn. eexists. repeat split.
Qed.

Lemma not_ready_request_answer_witness :
  status_code
    (fst (expand_query Sample.app_starting Sample.queue_up
            Sample.failing_backend Sample.test_query Sample.world0)) = 500%nat.
Proof.
  destruct (not_ready_request_answer Sample.app_starting Sample.queue_up
              Sample.failing_backend Sample.test_query Sample.world0
              (or_introl eq_refl)) as (w' & _ & Hstatus & _).
  exact Hstatus.
Defined.

(** Against C8 as it is worded.
    A queue that refuses the message: the request asked for the queue,
    the queue is configured and the expander is ready, and the answer
    is an error of status 500, not a queued response. *)
Lemma queued_request_counterexample :
  use_queue Sample.queued_query = true
  /\ sqs_handler Sample.app_queue <> None
  /\ (exists h, model_handler Sample.app_queue = Some h
                /\ handler_is_ready h = true)
  /\ fst (expand_query Sample.app_queue Sample.queue_down
            Sample.failing_backend Sample.queued_query Sample.world0)
     = Raise (HTTPException 500 (StrOf (ClientError "AccessDenied")))
  /\ status_code
       (fst (expand_query Sample.app_queue Sample.queue_down
               Sample.failing_backend Sample.queued_query Sample.world0))
     = 500%nat
  /\ sqs_queue
       (snd (expand_query Sample.app_queue Sample.queue_down
               Sample.failing_backend Sample.queued_query Sample.world0))
     = [].
Proof.
  split; [reflexivity|]. split; [discriminate|].
  split; [eexists; split; reflexivity|]. repeat split.
Qed.

(** C8, amended: a request with [use_queue] set, while a queue is
    configured and the model handler is ready, is handed to the queue
    and the model handler is not called, no latency is observed and
    nothing is drawn or slept; when the queue takes the message the
    answer is the queued response with the placeholder text, and when
    the queue raises the answer is an error of status 500. *)
Theorem queued_request_frame
    (app : App) (sv : Services) (B : ModelHandler.Backend)
    (request : QueryRequest) (w : World) (h : handler) :
  model_handler app = Some h ->
  handler_is_ready h = true ->
  use_queue request = true ->
  sqs_handler app <> None ->
  exists r w',
    expand_query app sv B request w = (r, w')
    /\ engine_calls w' = engine_calls w
    /\ REQUEST_LATENCY w' = REQUEST_LATENCY w
    /\ random_draws w' = random_draws w
    /\ slept_ms w' = slept_ms w
    /\ background_tasks w' = background_tasks w
    /\ REQUEST_COUNT w' = S (REQUEST_COUNT w)
    /\ match send_message sv
               {| msg_query := query request;
                  msg_timestamp := time_time sv (S (time_reads w)) |} with
       | Return _ =>
           r = Return
                 {| original_query := query request;
                    expanded_query := "Request queued for processing";
                    processing_time :=
                      time_time sv (S (S (time_reads w)))
                      - time_time sv (time_reads w);
                    queued := true |}
           /\ status_code r = 200%nat
           /\ sqs_queue w'
              = {| msg_query := query request;
                   msg_timestamp := time_time sv (S (time_reads w)) |}
                :: sqs_queue w
           /\ ERROR_COUNT w' = ERROR_COUNT w
       | Raise e =>
           r = Raise (HTTPException 500 (StrOf e))
           /\ status_code r = 500%nat
           /\ sqs_queue w' = sqs_queue w
           /\ ERROR_COUNT w' = S (ERROR_COUNT w)
       end.
Proof.
  intros Hsome Hready Hqueue Hsqs. run_handler.
  rewrite Hsome, Hready, Hqueue. cbn.
  rewrite bool_decide_eq_true_2 by exact Hsqs. cbn.
  destruct (send_message sv _) as [message_id|e]; cbn;
    eexists _, _; repeat split.
Qed.

Lemma queued_request_frame_witness :
  exists w',
    expand_query Sample.app_queue Sample.queue_up Sample.failing_backend
      Sample.queued_query Sample.world0
    = (Return {| original_query := "test query";
                 expanded_query := "Request queued for processing";
                 processing_time := 10;
                 queued := true |}, w')
    /\ engine_calls w' = []
    /\ REQUEST_LATENCY w' = [].
Proof.
  destruct (queued_request_frame Sample.app_queue Sample.queue_up
              Sample.failing_backend Sample.queued_query Sample.world0
              (Expander Sample.loaded) eq_refl eq_refl eq_refl
              ltac:(discriminate))
    as (r & w' & Hrun & Hcalls & Hlat & _ & _ & _ & _ & Hr & _).
  exists w'. cbn in Hr. subst r. repeat split; assumption.
Defined.

End Gateway.

(** ** More on the built-ins *)

Section Replace.

Import Py.

Lemma startswith_len (p s : string) :
  startswith p s = true -> (len p <= len s)%nat.
Proof.
  revert s. induction p as [|a p IH]; intros [|b s]; simpl;
    try discriminate; unfold len in *; simpl; try lia.
  intros [_ H]%andb_prop. specialize (IH s H). lia.
Qed.

Lemma len_drop (n : nat) (s : string) : len (drop n s) = (len s - n)%nat.
Proof.
  revert s. induction n as [|n IH]; intros [|c s]; unfold len in *; simpl;
    try lia. apply IH.
Qed.

(** Passing over [k] characters is dropping them. *)
Lemma replace_from_drop (k : nat) (old new s : string) :
  replace_from k old new s = replace_from 0 old new (drop k s).
Proof.
  revert k. induction s as [|c s IH]; intros [|k]; try reflexivity.
  simpl drop. change (replace_from (S k) old new (String c s))
    with (replace_from k old new s). apply IH.
Qed.

(** The equation of [replace] at a non-empty text. *)
Lemma replace_from_cons (old new : string) (c : ascii) (s : string) :
  replace_from 0 old new (String c s)
  = if startswith old (String c s)
    then new +:+ replace_from 0 old new (drop (len old - 1) s)
    else String c (replace_from 0 old new s).
Proof.
  change (replace_from 0 old new (String c s))
    with (if startswith old (String c s)
          then new +:+ replace_from (len old - 1) old new s
          else String c (replace_from 0 old new s)).
  now rewrite (replace_from_drop (len old - 1)).
Qed.

(** A replacement by a longer word makes the text longer, unless it
    leaves the text as it is. *)
Lemma replace_from_grows (old new : string) :
  (0 < len old)%nat -> (len old < len new)%nat ->
  forall n s, (len s <= n)%nat ->
    (len s <= len (replace_from 0 old new s))%nat
    /\ (len (replace_from 0 old new s) = len s ->
        replace_from 0 old new s = s).
Proof.
  intros Hold Hnew. induction n as [|n IH]; intros [|c s] Hn;
    try (split; reflexivity); [unfold len in Hn; simpl in Hn; lia|].
  rewrite replace_from_cons.
  destruct (startswith old (String c s)) eqn:Hhere.
  - apply startswith_len in Hhere. rewrite len_cons in Hhere, Hn.
    destruct (IH (drop (len old - 1) s)) as [Hle _].
    { rewrite len_drop. lia. }
    rewrite len_drop in Hle. rewrite len_app, len_cons. split; lia.
  - rewrite len_cons in Hn. destruct (IH s) as [Hle Heq]; [lia|].
    rewrite !len_cons. split; [lia|].
    intros H. f_equal. apply Heq. lia.
Qed.

Lemma replace_grows (old new s : string) :
  (0 < len old)%nat -> (len old < len new)%nat ->
  (len s <= len (replace old new s))%nat
  /\ (len (replace old new s) = len s -> replace old new s = s).
Proof.
  intros Hold Hnew. unfold replace. destruct old as [|a old].
  - unfold len in Hold. simpl in Hold. lia.
  - now apply (replace_from_grows (String a old) new Hold Hnew (len s)).
Qed.

Lemma startswith_app_l (p t s : string) :
  startswith (p +:+ t) s = true -> startswith p s = true.
Proof.
  revert s. induction p as [|a p IH]; intros s; [reflexivity|].
  rewrite app_cons. destruct s as [|b s]; simpl; [discriminate|].
  intros [Hab H]%andb_prop. rewrite Hab. simpl. now apply IH.
Qed.

(** Where a word does not occur, no longer word that starts with it
    occurs. *)
Lemma contains_app_absent (p t s : string) :
  contains p s = false -> contains (p +:+ t) s = false.
Proof.
  induction s as [|c s IH]; simpl.
  - intros H. apply orb_false_elim in H as [H _].
    apply orb_false_intro; [|reflexivity].
    destruct (startswith (p +:+ t) "") eqn:E; [|reflexivity].
    apply startswith_app_l in E. congruence.
  - intros H. apply orb_false_elim in H as [H1 H2].
    apply orb_false_intro; [|now apply IH].
    destruct (startswith (p +:+ t) (String c s)) eqn:E; [|reflexivity].
    apply startswith_app_l in E. congruence.
Qed.

End Replace.

(** ** The shape of a mock expansion *)

Section MockShape.

Import Py ModelHandler.

(** [b] is [a] made longer, or [a] itself. *)
Lemma grow_step (a b c : string) :
  (len a <= len b)%nat /\ (len b = len a -> b = a) ->
  (len b <= len c)%nat /\ (len c = len b -> c = b) ->
  (len a <= len c)%nat /\ (len c = len a -> c = a).
Proof.
  intros [H1 H2] [H3 H4]. split; [lia|]. intros H.
  assert (b = a) as Hb by (apply H2; lia). subst b. now apply H4.
Qed.

Ltac longer_word := unfold len; simpl; lia.

Lemma repair_algo_grows (ql e : string) :
  (len e <= len (repair_algo ql e))%nat
  /\ (len (repair_algo ql e) = len e -> repair_algo ql e = e).
Proof.
  unfold repair_algo. destruct (_ && _); [|now split].
  apply (grow_step e (replace "algo" "algorithm" e));
    apply replace_grows; longer_word.
Qed.

Lemma repair_enginer_grows (ql e : string) :
  (len e <= len (repair_enginer ql e))%nat
  /\ (len (repair_enginer ql e) = len e -> repair_enginer ql e = e).
Proof.
  unfold repair_enginer. destruct (contains _ _); [|now split].
  apply replace_grows; longer_word.
Qed.

Lemma repair_lerning_grows (ql e : string) :
  (len e <= len (repair_lerning ql e))%nat
  /\ (len (repair_lerning ql e) = len e -> repair_lerning ql e = e).
Proof.
  unfold repair_lerning. destruct (contains _ _); [|now split].
  apply replace_grows; longer_word.
Qed.

Lemma repair_vison_grows (ql e : string) :
  (len e <= len (repair_vison ql e))%nat
  /\ (len (repair_vison ql e) = len e -> repair_vison ql e = e).
Proof.
  unfold repair_vison. destruct (contains _ _); [|now split].
  apply replace_grows; longer_word.
Qed.

Lemma repair_sci_grows (q ql e : string) :
  (len e <= len (repair_sci q ql e))%nat
  /\ (len (repair_sci q ql e) = len e -> repair_sci q ql e = e).
Proof.
  unfold repair_sci. destruct (_ && _); [|now split].
  apply replace_grows; longer_word.
Qed.

(** The repairs make the query longer or leave it as it is. *)
Lemma repairs_grow (q : string) :
  (len q <= len (repairs q))%nat
  /\ (len (repairs q) = len q -> repairs q = q).
Proof.
  unfold repairs.
  eapply grow_step; [|apply repair_sci_grows].
  eapply grow_step; [|apply repair_vison_grows].
  eapply grow_step; [|apply repair_lerning_grows].
  eapply grow_step; [|apply repair_enginer_grows].
  apply repair_algo_grows.
Qed.

Lemma add_context_grows (q e : string) :
  (len e <= len (add_context q e))%nat
  /\ (len (add_context q e) = len e -> add_context q e = e).
Proof.
  unfold add_context. destruct (_ && _); [|now split].
  rewrite len_app. change (len " techniques and applications") with 28%nat.
  split; lia.
Qed.

(** Every entry of the table is longer than its key. *)
Lemma expansions_longer (q v : string) :
  expansions !! q = Some v -> (len q < len v)%nat.
Proof.
  unfold expansions. intros H%elem_of_list_to_map_2.
  repeat (apply elem_of_cons in H as [H|H];
          [inversion H; subst; vm_compute; lia|]).
  now apply elem_of_nil in H.
Qed.

(** X2: the mock expansion of a query is always strictly longer than
    the query (and so never empty and never the query itself), which is
    what the integration test asks of an expansion. *)
Theorem mock_expansion_longer
    (self : LlamaQueryExpander) (q : string) (w : World) :
  exists out w',
    _expand_with_mock_model self q w = (Return out, w')
    /\ (len q < len out)%nat
    /\ out <> q
    /\ out <> "".
Proof.
  assert (Hlonger : forall out, (len q < len out)%nat -> out <> q /\ out <> "").
  { intros out H. split; intros ->; [lia|]. unfold len in H. simpl in H. lia. }
  unfold _expand_with_mock_model.
  destruct (expansions !! q) as [v|] eqn:E.
  - exists v, w. split; [reflexivity|].
    apply expansions_longer in E. split; [exact E|now apply Hlonger].
  - eexists _, _. split; [reflexivity|].
    assert (Hgrow := grow_step _ _ _ (repairs_grow q)
                       (add_context_grows q (repairs q))).
    destruct Hgrow as [Hle Heq].
    destruct (String.eqb_spec (add_context q (repairs q)) q) as [Hsame|Hdiff].
    + assert ((len q < len ("enhanced " +:+ q))%nat) as H.
      { rewrite len_app. change (len "enhanced ") with 9%nat. lia. }
      split; [exact H|now apply Hlonger].
    + assert ((len q < len (add_context q (repairs q)))%nat) as H.
      { destruct (Nat.eq_dec (len (add_context q (repairs q))) (len q)) as [Hl|Hl];
          [now apply Heq in Hl|lia]. }
      split; [exact H|now apply Hlonger].
Qed.

(** Where none of the five misspellings occurs in lower case, the
    repairs change nothing, whatever the guards say. *)
Lemma repairs_absent (q : string) :
  contains "algo" q = false -> contains "enginer" q = false ->
  contains "lerning" q = false -> contains "vison" q = false ->
  contains "sci" q = false ->
  repairs q = q.
Proof.
  intros Halgo Henginer Hlerning Hvison Hsci.
  assert (Halgos : contains "algos" q = false)
    by exact (contains_app_absent "algo" "s" q Halgo).
  unfold repairs, repair_algo, repair_enginer, repair_lerning, repair_vison,
    repair_sci.
  rewrite (replace_absent "algo" "algorithm" q) by (discriminate || assumption).
  rewrite (replace_absent "algos" "algorithms" q) by (discriminate || assumption).
  rewrite Tauto.if_same.
  rewrite (replace_absent "enginer" "engineer" q) by (discriminate || assumption).
  rewrite Tauto.if_same.
  rewrite (replace_absent "lerning" "learning" q) by (discriminate || assumption).
  rewrite Tauto.if_same.
  rewrite (replace_absent "vison" "vision" q) by (discriminate || assumption).
  rewrite Tauto.if_same.
  rewrite (replace_absent "sci" "science" q) by (discriminate || assumption).
  now rewrite Tauto.if_same.
Qed.

(** X3: the repairs look for the misspellings in lower case only.  A
    query outside the table in which none of them occurs in lower
    case, whatever it holds in upper case, comes back with "enhanced"
    in front, or with the suffix when it is a single token of at most
    four characters. *)
Theorem mock_expansion_unrepaired
    (self : LlamaQueryExpander) (q : string) (w : World) :
  expansions !! q = None ->
  contains "algo" q = false -> contains "enginer" q = false ->
  contains "lerning" q = false -> contains "vison" q = false ->
  contains "sci" q = false ->
  fst (_expand_with_mock_model self q w)
  = Return (if (length (split q) =? 1)%nat && (len q <=? 4)%nat
            then q +:+ " techniques and applications"
            else "enhanced " +:+ q).
Proof.
  intros Htab Halgo Henginer Hlerning Hvison Hsci.
  rewrite mock_outside_table by exact Htab.
  rewrite repairs_absent by assumption.
  unfold add_context. destruct (_ && _).
  - destruct (String.eqb_spec (q +:+ " techniques and applications") q)
      as [Heq|Hne]; [|reflexivity].
    apply (f_equal len) in Heq. rewrite len_app in Heq.
    change (len " techniques and applications") with 28%nat in Heq. lia.
  - now rewrite String.eqb_refl.
Qed.

Lemma mock_expansion_unrepaired_witness :
  contains "enginer" (lower "ML ENGINER jobs") = true
  /\ fst (_expand_with_mock_model Sample.fresh "ML ENGINER jobs" Sample.world0)
     = Return "enhanced ML ENGINER jobs".
Proof.
  split; [reflexivity|].
  exact (mock_expansion_unrepaired Sample.fresh "ML ENGINER jobs" Sample.world0
           eq_refl eq_refl eq_refl eq_refl eq_refl eq_refl).
Defined.

End MockShape.

(** ** Pieces of a text *)

Section Infix.

Import Py ModelHandler.

Lemma infix_refl (s : string) : infix_of s s.
Proof. exists "", "". now rewrite app_nil_l, app_empty_r. Qed.

Lemma infix_trans (r s t : string) : infix_of r s -> infix_of s t -> infix_of r t.
Proof.
  intros (a & b & ->) (c & d & ->). exists (c +:+ a), (b +:+ d).
  now rewrite !app_assoc_str.
Qed.

Lemma take_drop (n : nat) (s : string) : take n s +:+ drop n s = s.
Proof.
  revert s. induction n as [|n IH]; intros [|c s]; try reflexivity.
  simpl take. simpl drop. now rewrite app_cons, IH.
Qed.

Lemma drop_app_len (a b : string) : drop (len a) (a +:+ b) = b.
Proof.
  induction a as [|c a IH]; [now destruct b|].
  rewrite app_cons, len_cons. simpl drop. exact IH.
Qed.

Lemma infix_take (n : nat) (s : string) : infix_of (take n s) s.
Proof. exists "", (drop n s). now rewrite app_nil_l, take_drop. Qed.

Lemma infix_drop (n : nat) (s : string) : infix_of (drop n s) s.
Proof. exists (take n s), "". now rewrite app_empty_r, take_drop. Qed.

Lemma infix_slice (i j : Z) (s : string) : infix_of (slice i j s) s.
Proof.
  unfold slice. eapply infix_trans; [apply infix_take|apply infix_drop].
Qed.

Lemma infix_lstrip (s : string) : infix_of (lstrip s) s.
Proof.
  induction s as [|c s IH]; [apply infix_refl|]. simpl.
  destruct (isspace c); [|apply infix_refl].
  eapply infix_trans; [exact IH|]. exists (String c ""), "".
  now rewrite app_empty_r.
Qed.

Lemma rstrip_prefix (s : string) : exists b, s = rstrip s +:+ b.
Proof.
  induction s as [|c s [b IH]]; [now exists ""|]. simpl.
  destruct (rstrip s) as [|d r] eqn:E.
  - destruct (isspace c); [now exists (String c s)|now exists s].
  - exists b. rewrite app_cons. now f_equal.
Qed.

Lemma infix_rstrip (s : string) : infix_of (rstrip s) s.
Proof.
  destruct (rstrip_prefix s) as [b Hb]. exists "", b. now rewrite app_nil_l.
Qed.

Lemma infix_strip (s : string) : infix_of (strip s) s.
Proof.
  unfold strip. eapply infix_trans; [apply infix_rstrip|apply infix_lstrip].
Qed.

Lemma clean_response_piece (response : string) :
  infix_of (_clean_response response) response.
Proof.
  unfold _clean_response.
  set (r := strip response).
  assert (Hr : infix_of r response) by apply infix_strip.
  set (u := if startswith dquote r && endswith dquote r
            then slice 1 (-1) r else r).
  assert (Hu : infix_of u response).
  { unfold u. destruct (_ && _); [|exact Hr].
    eapply infix_trans; [apply infix_slice|exact Hr]. }
  destruct (200 <? Z.of_nat (len u)); [|exact Hu].
  eapply infix_trans; [apply infix_strip|].
  eapply infix_trans; [apply infix_slice|exact Hu].
Qed.

Lemma startswith_app (p a b : string) :
  startswith p a = true -> startswith p (a +:+ b) = true.
Proof.
  revert a. induction p as [|x p IH]; intros [|y a]; simpl;
    try reflexivity; try discriminate.
  intros [Hxy H]%andb_prop. rewrite Hxy. simpl. now apply IH.
Qed.

Lemma contains_app_l (p a b : string) :
  p <> "" -> contains p a = true -> contains p (a +:+ b) = true.
Proof.
  intros Hp. induction a as [|c a IH].
  - destruct p; [contradiction|]. simpl. discriminate.
  - rewrite app_cons.
    change (contains p (String c a))
      with (startswith p (String c a) || contains p a).
    change (contains p (String c (a +:+ b)))
      with (startswith p (String c (a +:+ b)) || contains p (a +:+ b)).
    intros [H|H]%orb_prop.
    + apply (startswith_app _ _ b) in H. rewrite app_cons in H.
      rewrite H. reflexivity.
    + rewrite (IH H). apply orb_true_r.
Qed.

Lemma contains_app_r (p a b : string) :
  contains p b = true -> contains p (a +:+ b) = true.
Proof.
  intros H. induction a as [|c a IH]; [exact H|].
  rewrite app_cons.
  change (contains p (String c (a +:+ b)))
    with (startswith p (String c (a +:+ b)) || contains p (a +:+ b)).
  rewrite IH. apply orb_true_r.
Qed.

(** A word that does not occur in a text occurs in no piece of it. *)
Lemma contains_infix (p r s : string) :
  p <> "" -> infix_of r s -> contains p s = false -> contains p r = false.
Proof.
  intros Hp (a & b & ->) H.
  destruct (contains p r) eqn:E; [|reflexivity].
  apply (contains_app_l p r b Hp) in E.
  apply (contains_app_r p a) in E. congruence.
Qed.

(** X4: [_clean_response] only cuts: what it returns is a run of
    consecutive characters of the response, so it is no longer than the
    response and holds no word that the response does not hold. *)
Theorem clean_response_infix (response : string) :
  infix_of (_clean_response response) response
  /\ (len (_clean_response response) <= len response)%nat
  /\ (forall word, word <> "" -> contains word response = false ->
       contains word (_clean_response response) = false).
Proof.
  pose proof (clean_response_piece response) as Hpiece.
  split; [exact Hpiece|]. split.
  - destruct Hpiece as (a & b & Hs). rewrite Hs at 2.
    rewrite !len_app. lia.
  - intros word Hword Habsent. now apply (contains_infix word _ response).
Qed.

Lemma contains_false_drop (sep x : string) :
  sep <> "" ->
  (forall n, (n < len x)%nat -> startswith sep (drop n x) = false) ->
  contains sep x = false.
Proof.
  intros Hsep. induction x as [|c x IH]; intros H.
  - destruct sep; [contradiction|reflexivity].
  - simpl. apply orb_false_intro.
    + apply (H 0%nat). rewrite len_cons. lia.
    + apply IH. intros n Hn. apply (H (S n)). rewrite len_cons. lia.
Qed.

(** No occurrence of the separator is left in the last field. *)
Lemma last_field_from_clean (sep : string) :
  sep <> "" ->
  forall s skip cur,
    (forall n, (n < len cur)%nat ->
               startswith sep (drop n (cur +:+ s)) = false) ->
    (skip <> 0%nat -> cur = "") ->
    contains sep (last_field_from skip sep cur s) = false.
Proof.
  intros Hsep. induction s as [|c s IH]; intros skip cur Hocc Hskip.
  - simpl. apply contains_false_drop; [exact Hsep|].
    intros n Hn. specialize (Hocc n Hn). now rewrite app_empty_r in Hocc.
  - assert (Hnone : forall k,
              contains sep (last_field_from k sep "" s) = false).
    { intros k. apply IH; [|reflexivity].
      intros n Hn. unfold len in Hn. simpl in Hn. lia. }
    destruct skip as [|k].
    + change (last_field_from 0 sep cur (String c s))
        with (if startswith sep (String c s)
              then last_field_from (len sep - 1) sep "" s
              else last_field_from 0 sep (cur +:+ String c "") s).
      destruct (startswith sep (String c s)) eqn:Hhere; [apply Hnone|].
      apply IH; [|congruence].
      intros n Hn. rewrite app_assoc_str, app_cons, app_nil_l.
      rewrite len_app, len_cons in Hn. change (len "") with 0%nat in Hn.
      destruct (Nat.eq_dec n (len cur)) as [->|Hne].
      * now rewrite drop_app_len.
      * apply Hocc. lia.
    + rewrite (Hskip ltac:(discriminate)). apply Hnone.
Qed.

Lemma last_field_clean (sep s : string) :
  sep <> "" -> contains sep (last_field sep s) = false.
Proof.
  intros Hsep. unfold last_field. apply last_field_from_clean;
    [exact Hsep| |reflexivity].
  intros n Hn. unfold len in Hn. simpl in Hn. lia.
Qed.

(** The last field is the end of the text. *)
Lemma last_field_from_suffix (sep : string) (s : string) :
  forall skip cur,
    (skip <> 0%nat -> cur = "") ->
    exists a, cur +:+ s = a +:+ last_field_from skip sep cur s.
Proof.
  induction s as [|c s IH]; intros skip cur Hskip.
  - exists "". simpl. now rewrite app_empty_r, app_nil_l.
  - destruct skip as [|k].
    + change (last_field_from 0 sep cur (String c s))
        with (if startswith sep (String c s)
              then last_field_from (len sep - 1) sep "" s
              else last_field_from 0 sep (cur +:+ String c "") s).
      destruct (startswith sep (String c s)).
      * destruct (IH (len sep - 1)%nat "" (fun _ => eq_refl)) as [a Ha].
        rewrite app_nil_l in Ha. exists (cur +:+ String c a).
        rewrite app_assoc_str, app_cons. now rewrite <- Ha.
      * destruct (IH 0%nat (cur +:+ String c "") ltac:(congruence)) as [a Ha].
        exists a. rewrite <- Ha. now rewrite app_assoc_str.
    + rewrite (Hskip ltac:(discriminate)).
      destruct (IH k "" (fun _ => eq_refl)) as [a Ha].
      rewrite app_nil_l in *. exists (String c a).
      change (last_field_from (S k) sep "" (String c s))
        with (last_field_from k sep "" s).
      rewrite app_cons. now f_equal.
Qed.

Lemma infix_last_field (sep s : string) : infix_of (last_field sep s) s.
Proof.
  destruct (last_field_from_suffix sep s 0%nat "" ltac:(congruence)) as [a Ha].
  rewrite app_nil_l in Ha. exists a, "". now rewrite app_empty_r.
Qed.

End Infix.

(** ** The model handler as a whole *)

Section Engine.

Import Py ModelHandler.

Lemma frame_refl (w : World) : engine_frame w w.
Proof. unfold engine_frame. repeat split; lia. Qed.

Lemma frame_trans (w1 w2 w3 : World) :
  engine_frame w1 w2 -> engine_frame w2 w3 -> engine_frame w1 w3.
Proof.
  unfold engine_frame.
  intros (? & ? & ? & ? & ? & ? & ? & ? & ?) (? & ? & ? & ? & ? & ? & ? & ? & ?).
  repeat split; try lia; congruence.
Qed.

Local Abbreviation framed m := (forall w : World, engine_frame w (snd (m w))).

Lemma framed_ret {A} (a : A) : framed (ret a).
Proof. intros w. apply frame_refl. Qed.

Lemma framed_raise {A} (e : exn) : framed (@raise World A e).
Proof. intros w. apply frame_refl. Qed.

Lemma framed_call {A} (o : outcome A) : framed (@call World A o).
Proof. intros w. apply frame_refl. Qed.

Lemma framed_bind {A B} (m : M World A) (k : A -> M World B) :
  framed m -> (forall a, framed (k a)) -> framed (bind m k).
Proof.
  intros Hm Hk w. unfold bind. specialize (Hm w).
  destruct (m w) as [[a|e] w1]; simpl in *; [|exact Hm].
  eapply frame_trans; [exact Hm|apply Hk].
Qed.

Lemma framed_try {A} (m : M World A) (h : exn -> M World A) :
  framed m -> (forall e, framed (h e)) -> framed (try_except m h).
Proof.
  intros Hm Hh w. unfold try_except. specialize (Hm w).
  destruct (m w) as [[a|e] w1]; simpl in *; [exact Hm|].
  eapply frame_trans; [exact Hm|apply Hh].
Qed.

Lemma framed_draw : framed torch_draw.
Proof. intros w. unfold engine_frame. simpl. repeat split; lia. Qed.

Lemma framed_sleep (ms : Z) : 0 <= ms -> framed (asyncio_sleep ms).
Proof. intros Hms w. unfold engine_frame. simpl. repeat split; lia. Qed.

Lemma framed_mock (self : LlamaQueryExpander) (q : string) :
  framed (_expand_with_mock_model self q).
Proof.
  unfold _expand_with_mock_model. destruct (expansions !! q).
  - apply framed_ret.
  - apply framed_bind; [apply framed_sleep; lia|intros; apply framed_ret].
Qed.

Lemma framed_real_body (self : LlamaQueryExpander) (B : Backend) (q : string) :
  framed (real_model_body self B q).
Proof.
  unfold real_model_body.
  apply framed_bind.
  { unfold tokenizer_call. destruct (tokenizer self) as [[]|].
    - apply framed_bind; [apply framed_call|intros; apply framed_ret].
    - apply framed_bind; [apply framed_draw|intros; apply framed_ret].
    - apply framed_raise. }
  intros enc. apply framed_bind.
  { unfold encoding_to. destruct enc.
    - apply framed_bind; [apply framed_call|intros; apply framed_ret].
    - apply framed_raise. }
  intros enc'. apply framed_bind.
  { unfold model_generate. destruct (model self) as [[]|].
    - apply framed_bind; [apply framed_draw|intros; apply framed_call].
    - apply framed_bind; [apply framed_draw|intros; apply framed_ret].
    - apply framed_raise. }
  intros outputs. apply framed_bind.
  { unfold tokenizer_decode. destruct (tokenizer self) as [[]|].
    - apply framed_call.
    - apply framed_ret.
    - apply framed_raise. }
  intros text. apply framed_bind; [|intros; apply framed_ret].
  destruct (device self); [apply framed_call|apply framed_ret].
Qed.

Lemma framed_expand_query
    (self : LlamaQueryExpander) (B : Backend) (q : string) (w : World) :
  engine_frame w (snd (expand_query self B q w)).
Proof.
  revert w. unfold expand_query. destruct (negb (ready self)).
  - apply framed_raise.
  - apply framed_try; [|intros; apply framed_mock].
    destruct (_ && _); [|apply framed_mock].
    unfold _expand_with_real_model.
    apply framed_try; [apply framed_real_body|intros; apply framed_mock].
Qed.

(** X5: the model handler touches nothing of the service but the
    random generator and the time it sleeps: the Prometheus series,
    the queue, the background tasks and the clock are as before,
    whether [expand_query] returns or raises, and the same holds of the
    mock expansion and of the model path on their own. *)
Theorem expand_query_frame
    (self : LlamaQueryExpander) (B : Backend) (q : string) (w : World) :
  engine_frame w (snd (expand_query self B q w))
  /\ engine_frame w (snd (_expand_with_mock_model self q w))
  /\ engine_frame w (snd (real_model_body self B q w)).
Proof.
  split; [apply framed_expand_query|].
  split; [apply framed_mock|apply framed_real_body].
Qed.

(** A ready expander returns. *)
Lemma ready_expander_returns
    (self : LlamaQueryExpander) (B : Backend) (q : string) (w : World) :
  ready self = true ->
  exists out w',
    expand_query self B q w = (Return out, w')
    /\ (real_model_body self B q w = (Return out, w')
        \/ fst (_expand_with_mock_model self q w) = Return out).
Proof.
  intros Hready. unfold expand_query. rewrite Hready.
  cbn. destruct (mock_total q) as [out Hout].
  assert (Hfst : forall w0, fst (_expand_with_mock_model self q w0) = Return out).
  { intros w0. destruct (Hout self w0) as [w' ->]. reflexivity. }
  unfold try_except, _expand_with_real_model, try_except.
  destruct (has_generate (model self) && has_decode (tokenizer self)).
  - destruct (real_model_body self B q w) as [[r|e] w1] eqn:Hbody.
    + exists r, w1. split; [reflexivity|now left].
    + destruct (Hout self w1) as [w' ->]. exists out, w'.
      split; [reflexivity|right; apply Hfst].
  - destruct (Hout self w) as [w' Hrun]. rewrite Hrun. exists out, w'.
    split; [reflexivity|right; reflexivity].
Qed.

(** X6: [expand_query] raises exactly when the expander is not ready,
    and then it is [RuntimeError] with the world untouched; a ready
    expander always returns, either what the model path returned or the
    mock expansion of the query. *)
Theorem expand_query_raises_iff_not_ready
    (self : LlamaQueryExpander) (B : Backend) (q : string) (w : World) :
  (ready self = false ->
   expand_query self B q w = (Raise (RuntimeError "Model not loaded"), w))
  /\ (ready self = true ->
      exists out w',
        expand_query self B q w = (Return out, w')
        /\ (real_model_body self B q w = (Return out, w')
            \/ fst (_expand_with_mock_model self q w) = Return out)).
Proof.
  split; intros Hready; [|now apply ready_expander_returns].
  unfold expand_query. now rewrite Hready.
Qed.

(** The steps of a run of the model path that returns: each step
    returned, in the world the step before left, and decoding leaves
    the world as it finds it. *)
Lemma real_model_body_steps
    (self : LlamaQueryExpander) (B : Backend) (q : string)
    (w w' : World) (out : string) :
  real_model_body self B q w = (Return out, w') ->
  exists enc w1 enc' w2 outputs w3 text,
    tokenizer_call self B (prompt_template q) w = (Return enc, w1)
    /\ encoding_to B enc w1 = (Return enc', w2)
    /\ model_generate self B enc' w2 = (Return outputs, w3)
    /\ tokenizer_decode self B outputs w3 = (Return text, w3)
    /\ w' = w3
    /\ out = _clean_response
               (if contains "Improved query:" text
                then strip (last_field "Improved query:" text)
                else q).
Proof.
  unfold real_model_body.
  intros (enc & w1 & Hcall & H)%bind_Return.
  apply bind_Return in H as (enc' & w2 & Hto & H).
  apply bind_Return in H as (outputs & w3 & Hgenerate & H).
  apply bind_Return in H as (text & w4 & Hdecode & H).
  apply bind_Return in H as (u & w5 & Hcache & H).
  injection H as <- <-.
  assert (Hw4 : w4 = w3).
  { unfold tokenizer_decode, call, ret, raise in Hdecode.
    destruct (tokenizer self) as [[]|]; [|congruence|discriminate].
    destruct (decode B outputs); congruence. }
  assert (Hw5 : w5 = w4).
  { unfold call, ret in Hcache.
    destruct (device self); [|congruence].
    destruct (empty_cache B); congruence. }
  subst w4 w5.
  exists enc, w1, enc', w2, outputs, w3, text. repeat split; assumption.
Qed.

(** X7: when the model path itself returns, the text has at most 200
    characters, and it is made from the text decoded in that very run:
    the prompt of the query was tokenized, the encoding moved to the
    device, the model generated tokens from it, and these tokens were
    decoded to a text.  If that text holds the marker
    "Improved query:", what is returned is its last field, stripped and
    cleaned, a piece of the decoded text in which the marker does not
    occur; otherwise it is the cleaned query.  The world is the one
    generation left. *)
Theorem real_path_result
    (self : LlamaQueryExpander) (B : Backend) (q : string)
    (w w' : World) (out : string) :
  real_model_body self B q w = (Return out, w') ->
  (len out <= 200)%nat
  /\ exists enc w1 enc' w2 outputs text,
       tokenizer_call self B (prompt_template q) w = (Return enc, w1)
       /\ encoding_to B enc w1 = (Return enc', w2)
       /\ model_generate self B enc' w2 = (Return outputs, w')
       /\ tokenizer_decode self B outputs w' = (Return text, w')
       /\ if contains "Improved query:" text
          then out = _clean_response (strip (last_field "Improved query:" text))
               /\ infix_of out text
               /\ contains "Improved query:" out = false
          else out = _clean_response q.
Proof.
  intros (enc & w1 & enc' & w2 & outputs & w3 & text
          & Hcall & Hto & Hgenerate & Hdecode & -> & ->)%real_model_body_steps.
  split; [apply clean_response_bound|].
  exists enc, w1, enc', w2, outputs, text.
  split; [exact Hcall|]. split; [exact Hto|]. split; [exact Hgenerate|].
  split; [exact Hdecode|].
  destruct (contains "Improved query:" text); [|reflexivity].
  assert (Hpiece : infix_of
            (_clean_response (strip (last_field "Improved query:" text)))
            (last_field "Improved query:" text)).
  { eapply infix_trans; [apply clean_response_piece|apply infix_strip]. }
  split; [reflexivity|]. split.
  - eapply infix_trans; [exact Hpiece|apply infix_last_field].
  - eapply contains_infix; [discriminate|exact Hpiece|].
    apply last_field_clean. discriminate.
Qed.

Lemma real_path_result_witness :
  real_model_body Sample.loaded Fixture.echo_backend "ML algos" Sample.world0
  = (Return "machine learning algorithms", snd (torch_draw Sample.world0))
  /\ (len "machine learning algorithms" <= 200)%nat
  /\ exists enc w1 enc' w2 outputs text,
       tokenizer_call Sample.loaded Fixture.echo_backend
         (prompt_template "ML algos") Sample.world0 = (Return enc, w1)
       /\ encoding_to Fixture.echo_backend enc w1 = (Return enc', w2)
       /\ model_generate Sample.loaded Fixture.echo_backend enc' w2
          = (Return outputs, snd (torch_draw Sample.world0))
       /\ tokenizer_decode Sample.loaded Fixture.echo_backend outputs
            (snd (torch_draw Sample.world0))
          = (Return text, snd (torch_draw Sample.world0))
       /\ if contains "Improved query:" text
          then "machine learning algorithms"
               = _clean_response (strip (last_field "Improved query:" text))
               /\ infix_of "machine learning algorithms" text
               /\ contains "Improved query:" "machine learning algorithms" = false
          else "machine learning algorithms" = _clean_response "ML algos".
Proof.
  split; [reflexivity|].
  exact (real_path_result Sample.loaded Fixture.echo_backend "ML algos"
           Sample.world0 _ _ eq_refl).
Defined.

End Engine.

(** ** The accounts of [POST /expand] *)

Section Accounts.

Import Main.

Lemma handler_frame (h : handler) (B : ModelHandler.Backend) (q : string) (w : World) :
  engine_frame w (snd (handler_expand_query h B q w)).
Proof.
  destruct h as [self|r]; [apply framed_expand_query|].
  unfold engine_frame. simpl. repeat split; lia.
Qed.

(** A handler that says it is ready returns. *)
Lemma handler_ready_returns
    (h : handler) (B : ModelHandler.Backend) (q : string) (w : World) :
  handler_is_ready h = true ->
  exists out w', handler_expand_query h B q w = (Return out, w').
Proof.
  destruct h as [self|r]; simpl.
  - unfold ModelHandler.is_ready. intros [Hready _]%andb_prop.
    destruct (ready_expander_returns self B q w Hready)
      as (out & w' & Hrun & _).
    now exists out, w'.
  - intros _. eexists _, _. reflexivity.
Qed.

Ltac run_expand :=
  unfold expand_query, not_ready, queue_request, process_immediately,
    call_engine, sqs_send_message, time, REQUEST_COUNT_inc, ERROR_COUNT_inc,
    REQUEST_LATENCY_observe, add_task, try_except, bind, modify, raise, ret;
  cbn.

(** X8: the accounts of one request.  The request counter goes up by
    one on every path.  A response counts no error; a queued response
    carries the placeholder and leaves the latency histogram and the
    model handler alone; a response that is not queued adds its own
    processing time to the histogram, after one call of the model
    handler with the query.  Every failure leaves as [HTTPException]
    of status 500, counts at least one error and observes no latency. *)
Theorem expand_accounts
    (app : App) (sv : Services) (B : ModelHandler.Backend)
    (request : QueryRequest) (w : World) :
  exists r w',
    expand_query app sv B request w = (r, w')
    /\ REQUEST_COUNT w' = S (REQUEST_COUNT w)
    /\ match r with
       | Return resp =>
           ERROR_COUNT w' = ERROR_COUNT w
           /\ original_query resp = query request
           /\ if queued resp
              then expanded_query resp = "Request queued for processing"
                   /\ REQUEST_LATENCY w' = REQUEST_LATENCY w
                   /\ engine_calls w' = engine_calls w
              else REQUEST_LATENCY w' = processing_time resp :: REQUEST_LATENCY w
                   /\ engine_calls w' = query request :: engine_calls w
                   /\ sqs_queue w' = sqs_queue w
       | Raise e =>
           (exists cause, e = HTTPException 500 (StrOf cause))
           /\ (ERROR_COUNT w < ERROR_COUNT w')%nat
           /\ REQUEST_LATENCY w' = REQUEST_LATENCY w
       end.
Proof.
  run_expand.
  destruct (model_handler app) as [h|]; cbn.
  2: { eexists _, _. repeat split; cbn; try lia; eauto. }
  destruct (handler_is_ready h); cbn.
  2: { eexists _, _. repeat split; cbn; try lia; eauto. }
  destruct (use_queue request && bool_decide (sqs_handler app <> None)); cbn.
  - destruct (send_message sv _); cbn; eexists _, _; repeat split; cbn;
      try lia; eauto.
  - match goal with
    | |- context [handler_expand_query h B (query request) ?w2] =>
        pose proof (handler_frame h B (query request) w2) as Hframe;
        destruct (handler_expand_query h B (query request) w2) as [[out|e] w3]
    end; unfold engine_frame in Hframe; cbn in *;
      destruct Hframe as (_ & _ & Htime & Hreq & Herr & Hlat & Hsqs & Htasks & Hcalls).
    + destruct (mlflow_logger app); cbn; eexists _, _;
        repeat split; cbn; congruence.
    + eexists _, _. repeat split; cbn; eauto; try congruence. lia.
Qed.

End Accounts.

(** ** Start-up, health and the requests that follow *)

Section StartUp.

Import Main Endpoints Lifespan.

Lemma ready_request_response
    (app : App) (sv : Services) (B : ModelHandler.Backend)
    (request : QueryRequest) (w : World) (h : handler) :
  model_handler app = Some h ->
  handler_is_ready h = true ->
  use_queue request = false \/ sqs_handler app = None ->
  exists resp w',
    expand_query app sv B request w = (Return resp, w')
    /\ queued resp = false
    /\ original_query resp = query request
    /\ ERROR_COUNT w' = ERROR_COUNT w
    /\ background_tasks w'
       = match mlflow_logger app with
         | Some _ =>
             {| log_original := query request;
                log_expanded := expanded_query resp;
                log_time := processing_time resp |} :: background_tasks w
         | None => background_tasks w
         end.
Proof.
  intros Hsome Hready Hqueue.
  assert (Hgate : (use_queue request
                   && bool_decide (sqs_handler app <> None)) = false).
  { destruct Hqueue as [->| ->]; [reflexivity|].
    rewrite bool_decide_eq_false_2 by tauto. apply andb_false_r. }
  unfold expand_query, process_immediately, call_engine, time,
    REQUEST_COUNT_inc, REQUEST_LATENCY_observe, add_task, try_except, bind,
    modify, ret. cbn.
  rewrite Hsome. cbn. rewrite Hready, Hgate. cbn.
  match goal with
  | |- context [handler_expand_query h B (query request) ?w2] =>
      pose proof (handler_frame h B (query request) w2) as Hframe;
      destruct (handler_ready_returns h B (query request) w2 Hready)
        as (out & w3 & Hrun);
      rewrite Hrun in *
  end.
  unfold engine_frame in Hframe. cbn in Hframe.
  destruct Hframe as (_ & _ & _ & _ & Herr & _ & _ & Htasks & _).
  destruct (mlflow_logger app); cbn; eexists _, _; repeat split; cbn;
    congruence.
Qed.

(** X9: with a model handler that says it is ready, a request that
    does not go to the queue (it did not ask for it, or no queue is
    configured) is always answered with status 200: the response is not
    queued, carries the query back, and the logging task is scheduled
    exactly when the logger is configured. *)
Theorem ready_request_succeeds
    (app : App) (sv : Services) (B : ModelHandler.Backend)
    (request : QueryRequest) (w : World) (h : handler) :
  model_handler app = Some h ->
  handler_is_ready h = true ->
  use_queue request = false \/ sqs_handler app = None ->
  exists resp w',
    expand_query app sv B request w = (Return resp, w')
    /\ status_code (fst (expand_query app sv B request w)) = 200%nat
    /\ queued resp = false
    /\ original_query resp = query request
    /\ ERROR_COUNT w' = ERROR_COUNT w
    /\ background_tasks w'
       = match mlflow_logger app with
         | Some _ =>
             {| log_original := query request;
                log_expanded := expanded_query resp;
                log_time := processing_time resp |} :: background_tasks w
         | None => background_tasks w
         end.
Proof.
  intros Hsome Hready Hqueue.
  destruct (ready_request_response app sv B request w h Hsome Hready Hqueue)
    as (resp & w' & Hrun & Hrest).
  exists resp, w'. rewrite Hrun. split; [reflexivity|].
  split; [reflexivity|exact Hrest].
Qed.

Lemma ready_request_succeeds_witness :
  exists w',
    expand_query Sample.app_queue Sample.queue_up Fixture.echo_backend
      {| query := "ML algos"; use_queue := false |} Sample.world0
    = (Return {| original_query := "ML algos";
                 expanded_query := "machine learning algorithms";
                 processing_time := 5;
                 queued := false |}, w').
Proof.
  destruct (ready_request_succeeds Sample.app_queue Sample.queue_up
              Fixture.echo_backend {| query := "ML algos"; use_queue := false |}
              Sample.world0 (Expander Sample.loaded) eq_refl eq_refl
              (or_introl eq_refl)) as (resp & w' & Hrun & _).
  exists w'. rewrite Hrun. f_equal. f_equal.
  vm_compute in Hrun. congruence.
Defined.

(** What the readiness gate answers. *)
Lemma gate_refuses
    (app : App) (sv : Services) (B : ModelHandler.Backend)
    (request : QueryRequest) (w : World) :
  model_handler app = None
  \/ (exists h, model_handler app = Some h /\ handler_is_ready h = false) ->
  fst (expand_query app sv B request w)
  = Raise (HTTPException 500
             (StrOf (HTTPException 503 (Detail "Model not ready")))).
Proof.
  unfold expand_query, not_ready, time, REQUEST_COUNT_inc, ERROR_COUNT_inc,
    try_except, bind, modify, raise. cbn.
  intros [->|(h & -> & Hnot)]; cbn; [reflexivity|].
  now rewrite Hnot.
Qed.

(** X10: [GET /health] and [POST /expand] agree: the health check says
    "unhealthy" exactly when every request to expand is refused at the
    readiness gate, and "healthy" with [model_loaded] set otherwise. *)
Theorem health_matches_gate (app : App) :
  (health_check app
   = {[ "status" := VStr "healthy"; "model_loaded" := VBool true ]}
   \/ health_check app
      = {[ "status" := VStr "unhealthy"; "model_loaded" := VBool false ]})
  /\ (health_check app !! "status" = Some (VStr "unhealthy") <->
      forall sv B request w,
        fst (expand_query app sv B request w)
        = Raise (HTTPException 500
                   (StrOf (HTTPException 503 (Detail "Model not ready"))))).
Proof.
  unfold health_check.
  destruct (model_handler app) as [h|] eqn:Hsome.
  - destruct (handler_is_ready h) eqn:Hready.
    + split; [now left|]. split; [intros H; vm_compute in H; discriminate|].
      intros H. exfalso.
      destruct (ready_request_response app Sample.queue_up
                  Sample.failing_backend Sample.test_query Sample.world0 h
                  Hsome Hready (or_introl eq_refl)) as (resp & w' & Hrun & _).
      specialize (H Sample.queue_up Sample.failing_backend Sample.test_query
                    Sample.world0).
      rewrite Hrun in H. discriminate.
    + split; [now right|]. split; [|reflexivity].
      intros _ sv B request w. apply gate_refuses. right. eauto.
  - split; [now right|]. split; [|reflexivity].
    intros _ sv B request w. apply gate_refuses. now left.
Qed.

End StartUp.

(** ** The life of the application *)

Section Life.

Import Main Endpoints Lifespan.

Lemma load_model_ready
    (L : ModelHandler.Loader) (self : ModelHandler.LlamaQueryExpander) :
  exists self',
    ModelHandler.load_model L self = (Return tt, self')
    /\ ModelHandler.is_ready self' = true.
Proof.
  unfold ModelHandler.load_model, try_except.
  destruct (ModelHandler.load_model_body L self) as [[[]|e] s] eqn:E.
  - exists s. split; [reflexivity|].
    destruct (load_model_body_ready _ _ _ E) as (Hr & Hm & _).
    unfold ModelHandler.is_ready. rewrite Hr. now rewrite bool_decide_eq_true_2.
  - eexists. split; [apply create_mock_model_ready|reflexivity].
Qed.

(** What start-up leaves when the expander could be built. *)
Lemma startup_with_expander (E : Startup) (app0 : App) (cuda : bool) :
  torch_cuda_is_available E = Return cuda ->
  exists self' app,
    startup E app0 = (Return tt, app)
    /\ model_handler app = Some (Expander self')
    /\ ModelHandler.load_model (loader E) (ModelHandler.init cuda)
       = (Return tt, self')
    /\ ModelHandler.is_ready self' = true
    /\ match getenv_SQS_QUEUE_URL E, boto3_client E with
       | Some (String c url), Return _ =>
           sqs_handler app = Some {| queue_url := String c url |}
           /\ match mlflow_set_tracking_uri E with
              | Return _ => mlflow_logger app <> None
              | Raise _ => mlflow_logger app = mlflow_logger app0
              end
       | Some (String c url), Raise _ =>
           sqs_handler app = sqs_handler app0
           /\ mlflow_logger app = mlflow_logger app0
       | _, _ =>
           sqs_handler app = sqs_handler app0
           /\ match mlflow_set_tracking_uri E with
              | Return _ => mlflow_logger app <> None
              | Raise _ => mlflow_logger app = mlflow_logger app0
              end
       end.
Proof.
  intros Hctor.
  destruct (load_model_ready (loader E) (ModelHandler.init cuda))
    as (self' & Hload & Hready).
  exists self'.
  unfold startup, startup_body, startup_handler, load_model_in_place,
    new_SQSHandler, new_MLflowLogger, try_except, bind, call, modify, get, ret.
  rewrite Hctor. cbn. rewrite Hload. cbn.
  destruct (getenv_SQS_QUEUE_URL E) as [[|c url]|]; cbn;
    try destruct (boto3_client E); cbn;
    destruct (mlflow_set_tracking_uri E); cbn;
    eexists; repeat split; auto; discriminate.
Qed.

(** X11: start-up always completes and leaves a model handler that is
    ready, in a fresh process and whenever the expander can be built:
    the health check then says "healthy" and every request that does
    not ask for the queue is answered with status 200.  When the queue
    client cannot be built, the logger is not built either. *)
Theorem startup_makes_ready (E : Startup) (app0 : App) :
  model_handler app0 = None
  \/ (exists cuda, torch_cuda_is_available E = Return cuda) ->
  exists app,
    startup E app0 = (Return tt, app)
    /\ (exists h, model_handler app = Some h /\ handler_is_ready h = true)
    /\ health_check app
       = {[ "status" := VStr "healthy"; "model_loaded" := VBool true ]}
    /\ (forall sv B request w,
          use_queue request = false ->
          status_code (fst (expand_query app sv B request w)) = 200%nat)
    /\ (forall cuda c url e,
          torch_cuda_is_available E = Return cuda ->
          getenv_SQS_QUEUE_URL E = Some (String c url) ->
          boto3_client E = Raise e ->
          sqs_handler app = sqs_handler app0
          /\ mlflow_logger app = mlflow_logger app0).
Proof.
  intros Hfresh.
  assert (Hserve : forall app h,
            model_handler app = Some h -> handler_is_ready h = true ->
            health_check app
            = {[ "status" := VStr "healthy"; "model_loaded" := VBool true ]}
            /\ forall sv B request w,
                 use_queue request = false ->
                 status_code (fst (expand_query app sv B request w)) = 200%nat).
  { intros app h Hsome Hready. split.
    - unfold health_check. now rewrite Hsome, Hready.
    - intros sv B request w Hq.
      destruct (ready_request_response app sv B request w h Hsome Hready
                  (or_introl Hq)) as (resp & w' & -> & _).
      reflexivity. }
  destruct (torch_cuda_is_available E) as [cuda|e0] eqn:Hctor.
  - destruct (startup_with_expander E app0 cuda Hctor)
      as (self' & app & Hrun & Hsome & _ & Hready & Hrest).
    exists app. split; [exact Hrun|].
    split; [exists (Expander self'); now split|].
    destruct (Hserve app (Expander self') Hsome Hready) as [Hhealth Hok].
    split; [exact Hhealth|]. split; [exact Hok|].
    intros cuda' c url e _ Hurl Hboto. now rewrite Hurl, Hboto in Hrest.
  - destruct Hfresh as [Hnone|[cuda Hcuda]]; [|discriminate].
    exists (set_model_handler (Some (MockModelHandler true)) app0).
    assert (Hrun : startup E app0
                   = (Return tt,
                      set_model_handler (Some (MockModelHandler true)) app0)).
    { unfold startup, startup_body, startup_handler, try_except, bind, call,
        modify, get, ret. rewrite Hctor. cbn. now rewrite Hnone. }
    split; [exact Hrun|].
    split; [exists (MockModelHandler true); now split|].
    destruct (Hserve (set_model_handler (Some (MockModelHandler true)) app0)
                (MockModelHandler true) eq_refl eq_refl) as [Hhealth Hok].
    split; [exact Hhealth|]. split; [exact Hok|].
    intros cuda' c url e Hcuda'. discriminate.
Qed.

End Life.

Section LifeExamples.

Import Main Endpoints Lifespan.

Lemma startup_makes_ready_witness :
  exists app,
    startup Fixture.all_up globals0 = (Return tt, app)
    /\ health_check app
       = {[ "status" := VStr "healthy"; "model_loaded" := VBool true ]}
    /\ sqs_handler app = Some {| queue_url := "https://sqs.example/q" |}.
Proof.
  destruct (startup_makes_ready Fixture.all_up globals0 (or_introl eq_refl))
    as (app & Hrun & _ & Hhealth & _).
  exists app. split; [exact Hrun|]. split; [exact Hhealth|].
  vm_compute in Hrun. injection Hrun as <-. reflexivity.
Defined.

End LifeExamples.

(** ** Cleaning up *)

Section CleaningUp.

Import ModelHandler Cleanup.

Ltac run_cleanup :=
  unfold cleanup, getattr_model, getattr_tokenizer, del_model, del_tokenizer,
    clear_ready, Cleanup.is_ready, of_expander, bind, call, modify, get, ret;
  cbn.

(** What [cleanup] leaves when it returns. *)
Lemma cleanup_result (R : Runtime) (self : LlamaQueryExpander) :
  cuda_is_available R = false \/ cuda_empty_cache R = Return tt ->
  cleanup R (of_expander self)
  = (Return tt,
     {| fields := {| model := None; tokenizer := None;
                     device := device self; ready := false |};
        has_model := bool_decide (model self = None);
        has_tokenizer := bool_decide (tokenizer self = None) |}).
Proof.
  intros Hcache.
  assert (Hc : (if cuda_is_available R
                then @call Instance unit (cuda_empty_cache R)
                else ret tt) = ret tt).
  { destruct Hcache as [->| ->]; [reflexivity|].
    now destruct (cuda_is_available R). }
  unfold cleanup. rewrite Hc. run_cleanup.
  destruct self as [[m|] [t|] d r]; reflexivity.
Qed.

(** X12: when [cleanup] returns, the expander is not ready: [is_ready]
    answers false and [expand_query] raises [RuntimeError]; the model
    and the tokenizer that were set are deleted, not set to [None], so
    a second [cleanup] raises [AttributeError] if there was a model,
    and only an expander without a model and without a tokenizer can
    be cleaned up twice. *)
Theorem cleanup_then_not_ready (R : Runtime) (self : LlamaQueryExpander) :
  cuda_is_available R = false \/ cuda_empty_cache R = Return tt ->
  exists i',
    cleanup R (of_expander self) = (Return tt, i')
    /\ Cleanup.is_ready i' = (Return false, i')
    /\ (forall B q w,
          expand_query (fields i') B q w
          = (Raise (RuntimeError "Model not loaded"), w))
    /\ has_model i' = bool_decide (model self = None)
    /\ has_tokenizer i' = bool_decide (tokenizer self = None)
    /\ (model self <> None ->
        cleanup R i'
        = (Raise (AttributeError
                    "'LlamaQueryExpander' object has no attribute 'model'"), i'))
    /\ (model self = None -> tokenizer self = None ->
        cleanup R i' = (Return tt, i')).
Proof.
  intros Hcache.
  assert (Hc : (if cuda_is_available R
                then @call Instance unit (cuda_empty_cache R)
                else ret tt) = ret tt).
  { destruct Hcache as [->| ->]; [reflexivity|].
    now destruct (cuda_is_available R). }
  unfold cleanup. rewrite Hc. run_cleanup.
  destruct self as [[m|] [t|] d r]; cbn;
    eexists; (split; [reflexivity|]); cbn;
    repeat split; try discriminate; try congruence;
    try (intros; unfold expand_query; reflexivity).
Qed.

Lemma cleanup_then_not_ready_witness :
  exists i',
    cleanup Fixture.cpu_runtime (of_expander Sample.loaded) = (Return tt, i')
    /\ has_model i' = false
    /\ cleanup Fixture.cpu_runtime i'
       = (Raise (AttributeError
                   "'LlamaQueryExpander' object has no attribute 'model'"), i').
Proof.
  destruct (cleanup_then_not_ready Fixture.cpu_runtime Sample.loaded
              (or_introl eq_refl))
    as (i' & Hrun & _ & _ & Hmodel & _ & Hagain & _).
  exists i'. split; [exact Hrun|]. split; [exact Hmodel|].
  apply Hagain. discriminate.
Defined.

(** X13: when [torch.cuda.empty_cache()] raises during [cleanup], the
    exception leaves [cleanup] with the model and the tokenizer already
    deleted and the flag still up, and from then on [is_ready] raises
    [AttributeError] instead of answering. *)
Theorem cleanup_interrupted
    (R : Runtime) (self : LlamaQueryExpander) (e : exn) :
  cuda_is_available R = true ->
  cuda_empty_cache R = Raise e ->
  ready self = true ->
  model self <> None ->
  exists i',
    cleanup R (of_expander self) = (Raise e, i')
    /\ ready (fields i') = true
    /\ has_model i' = false
    /\ Cleanup.is_ready i'
       = (Raise (AttributeError
                   "'LlamaQueryExpander' object has no attribute 'model'"), i').
Proof.
  intros Hcuda Hcache Hready Hmodel. unfold cleanup.
  rewrite Hcuda, Hcache. run_cleanup.
  destruct self as [[m|] [t|] d r]; cbn in *; try contradiction; subst r;
    eexists; (split; [reflexivity|]); repeat split.
Qed.

Lemma cleanup_interrupted_witness :
  exists i',
    cleanup {| cuda_is_available := true;
               cuda_empty_cache := Raise (RuntimeError "CUDA error") |}
            (of_expander Sample.loaded)
    = (Raise (RuntimeError "CUDA error"), i')
    /\ ready (fields i') = true.
Proof.
  destruct (cleanup_interrupted
              {| cuda_is_available := true;
                 cuda_empty_cache := Raise (RuntimeError "CUDA error") |}
              Sample.loaded (RuntimeError "CUDA error")
              eq_refl eq_refl eq_refl ltac:(discriminate))
    as (i' & Hrun & Hready & _).
  exists i'. now split.
Defined.

End CleaningUp.

(** ** From start-up to shutdown *)

Section Shutdown.

Import Main Endpoints Lifespan.

(** X14: a service that was started with an expander and is shut down
    (on a machine where emptying the CUDA cache does not raise) ends
    with the expander not ready and its model deleted; when start-up
    had to fall back on the local mock handler, shutdown cleans
    nothing up. *)
Theorem startup_then_shutdown (E : Startup) (R : Cleanup.Runtime) :
  Cleanup.cuda_is_available R = false
  \/ Cleanup.cuda_empty_cache R = Return tt ->
  exists app,
    startup E globals0 = (Return tt, app)
    /\ match torch_cuda_is_available E with
       | Return _ =>
           exists i',
             shutdown R app = Some (Return tt, i')
             /\ Cleanup.is_ready i' = (Return false, i')
             /\ Cleanup.has_model i' = false
       | Raise _ =>
           shutdown R app = None
           /\ model_handler app = Some (MockModelHandler true)
       end.
Proof.
  intros Hcache.
  destruct (torch_cuda_is_available E) as [cuda|e] eqn:Hctor.
  - destruct (startup_with_expander E globals0 cuda Hctor)
      as (self' & app & Hrun & Hsome & _ & Hready & _).
    exists app. split; [exact Hrun|].
    unfold shutdown. rewrite Hsome, (cleanup_result R self' Hcache).
    eexists. split; [reflexivity|]. split; [reflexivity|]. cbn.
    unfold ModelHandler.is_ready in Hready.
    apply andb_prop in Hready as [_ Hmodel%bool_decide_eq_true_1].
    now apply bool_decide_eq_false_2.
  - eexists. split.
    + unfold startup, startup_body, startup_handler, try_except, bind, call,
        modify, get, ret. rewrite Hctor. reflexivity.
    + split; reflexivity.
Qed.

Lemma startup_then_shutdown_witness :
  exists app i',
    startup Fixture.all_up globals0 = (Return tt, app)
    /\ shutdown Fixture.cpu_runtime app = Some (Return tt, i')
    /\ Cleanup.has_model i' = false.
Proof.
  destruct (startup_then_shutdown Fixture.all_up Fixture.cpu_runtime
              (or_introl eq_refl)) as (app & Hrun & i' & Hdown & _ & Hmodel).
  now exists app, i'.
Defined.

(** X15: [GET /queue/status] never raises and leaves the world as it
    is.  Its answer always says whether a queue is configured; with a
    queue, it carries the two counts that SQS gave, a missing count
    being 0, and when the call to SQS raises, when the response has no
    attributes or when a count is no integer, it carries the error and
    no count. *)
Theorem queue_status_answer
    (int : string -> outcome Z)
    (get_queue_attributes : outcome (option (gmap string string)))
    (app : App) (w : World) :
  exists body,
    queue_status int get_queue_attributes app w = (Return body, w)
    /\ body !! "queue_enabled"
       = Some (VBool (bool_decide (sqs_handler app <> None)))
    /\ (sqs_handler app = None -> body = {[ "queue_enabled" := VBool false ]})
    /\ (sqs_handler app <> None ->
        match get_queue_attributes with
        | Return (Some attributes) =>
            match from_option int (Return 0)
                    (attributes !! "ApproximateNumberOfMessages"),
                  from_option int (Return 0)
                    (attributes !! "ApproximateNumberOfMessagesNotVisible") with
            | Return available, Return in_flight =>
                body = {[ "queue_enabled" := VBool true;
                          "messages_available" := VInt available;
                          "messages_in_flight" := VInt in_flight ]}
            | Raise e, _ | Return _, Raise e =>
                body = {[ "queue_enabled" := VBool true; "error" := VStrOf e ]}
            end
        | Return None =>
            body = {[ "queue_enabled" := VBool true;
                      "error" := VStrOf (OtherException "KeyError: 'Attributes'") ]}
        | Raise e =>
            body = {[ "queue_enabled" := VBool true; "error" := VStrOf e ]}
        end).
Proof.
  unfold queue_status, get_queue_status, int_attribute, try_except, bind,
    call, raise, ret.
  destruct (sqs_handler app) as [q|].
  - rewrite bool_decide_eq_true_2 by discriminate.
    destruct get_queue_attributes as [[attributes|]|e]; cbn.
    + destruct (attributes !! "ApproximateNumberOfMessages") as [t1|]; cbn;
        [destruct (int t1) as [n1|e1]; cbn|];
        (destruct (attributes !! "ApproximateNumberOfMessagesNotVisible")
           as [t2|]; cbn; [destruct (int t2) as [n2|e2]; cbn|]);
        eexists; (split; [reflexivity|]);
        (split; [reflexivity|]); (split; [discriminate|]);
        intros _; reflexivity.
    + eexists. split; [reflexivity|]. split; [reflexivity|].
      split; [discriminate|]. reflexivity.
    + eexists. split; [reflexivity|]. split; [reflexivity|].
      split; [discriminate|]. reflexivity.
  - rewrite bool_decide_eq_false_2 by tauto.
    eexists. split; [reflexivity|]. split; [reflexivity|].
    split; [reflexivity|]. intros H. now contradiction H.
Qed.

End Shutdown.

(** ** A model that answers after the prompt *)

Section Echo.

Import Py ModelHandler.

Local Abbreviation marker := "Improved query:".
Local Abbreviation marker_tail := "mproved query:".

Lemma startswith_refl_app (p s : string) : startswith p (p +:+ s) = true.
Proof.
  induction p as [|c p IH]; [reflexivity|].
  rewrite app_cons. simpl. now rewrite Ascii.eqb_refl.
Qed.

(** Where the separator does not occur, everything is one field. *)
Lemma last_field_from_absent (sep s cur : string) :
  contains sep s = false -> last_field_from 0 sep cur s = cur +:+ s.
Proof.
  revert cur. induction s as [|c s IH]; intros cur H.
  - simpl. now rewrite app_empty_r.
  - apply contains_cons in H as [Hhere Hlater].
    change (last_field_from 0 sep cur (String c s))
      with (if startswith sep (String c s)
            then last_field_from (len sep - 1) sep "" s
            else last_field_from 0 sep (cur +:+ String c "") s).
    rewrite Hhere, IH by exact Hlater. now rewrite app_assoc_str.
Qed.

(** Passing over exactly the characters still to be skipped. *)
Lemma last_field_from_skip (sep p s cur : string) :
  last_field_from (len p) sep cur (p +:+ s) = last_field_from 0 sep cur s.
Proof.
  induction p as [|c p IH]; [reflexivity|].
  rewrite app_cons, len_cons.
  change (last_field_from (S (len p)) sep cur (String c (p +:+ s)))
    with (last_field_from (len p) sep cur (p +:+ s)).
  exact IH.
Qed.

(** The scan reaches the marker that ends the prompt with nothing left
    to skip, because the first letter of the marker occurs nowhere
    else in it. *)
Lemma last_field_from_marker (b : string) :
  contains marker b = false ->
  forall a pending cur,
    startswith pending (a +:+ marker +:+ b) = true ->
    contains "I" pending = false ->
    last_field_from (len pending) marker cur (a +:+ marker +:+ b) = b.
Proof.
  intros Hb. induction a as [|c a IH]; intros pending cur Hstart Hno.
  - rewrite app_nil_l in *. destruct pending as [|x pending].
    + change (last_field_from (len "") marker cur (marker +:+ b))
        with (last_field_from (len marker_tail) marker ""
                (marker_tail +:+ b)).
      rewrite last_field_from_skip, last_field_from_absent by exact Hb.
      reflexivity.
    + apply contains_cons in Hno as [Hx _]. simpl in Hstart, Hx.
      apply andb_prop in Hstart as [Hxi _].
      apply Ascii.eqb_eq in Hxi. subst x. discriminate.
  - rewrite app_cons in *. destruct pending as [|x pending].
    + change (last_field_from (len "") marker cur (String c (a +:+ marker +:+ b)))
        with (if startswith marker (String c (a +:+ marker +:+ b))
              then last_field_from (len marker_tail) marker ""
                     (a +:+ marker +:+ b)
              else last_field_from (len "") marker (cur +:+ String c "")
                     (a +:+ marker +:+ b)).
      destruct (startswith marker (String c (a +:+ marker +:+ b))) eqn:Hhere.
      * apply IH; [|reflexivity].
        simpl in Hhere. now apply andb_prop in Hhere as [_ Hhere].
      * now apply IH.
    + rewrite len_cons.
      change (last_field_from (S (len pending)) marker cur
                (String c (a +:+ marker +:+ b)))
        with (last_field_from (len pending) marker cur (a +:+ marker +:+ b)).
      apply contains_cons in Hno as [_ Hno]. simpl in Hstart.
      apply andb_prop in Hstart as [_ Hstart]. now apply IH.
Qed.

Lemma last_field_after_marker (a b : string) :
  contains marker b = false -> last_field marker (a +:+ marker +:+ b) = b.
Proof.
  intros Hb. exact (last_field_from_marker b Hb a "" "" eq_refl eq_refl).
Qed.

Lemma app_regroup (p q nl m c : string) :
  (p +:+ q +:+ (nl +:+ m)) +:+ c = (p +:+ q +:+ nl) +:+ m +:+ c.
Proof. now rewrite !app_assoc_str. Qed.

Lemma prompt_then_completion (q completion : string) :
  exists a, prompt_template q +:+ completion = a +:+ marker +:+ completion.
Proof.
  eexists. unfold prompt_template.
  exact (app_regroup _ q (String "010"%char "") marker completion).
Qed.

(** After the prompt and a completion without the marker, the
    extraction finds the completion. *)
Lemma extract_completion (q completion : string) :
  contains marker completion = false ->
  (if contains marker (prompt_template q +:+ completion)
   then strip (last_field marker (prompt_template q +:+ completion))
   else q)
  = strip completion.
Proof.
  intros Hfree. destruct (prompt_then_completion q completion) as [a ->].
  rewrite last_field_after_marker by exact Hfree.
  replace (contains marker (a +:+ marker +:+ completion)) with true;
    [reflexivity|].
  symmetry. apply contains_app_r. apply contains_app_l; [discriminate|].
  reflexivity.
Qed.

(** What the model path answers once its four steps have returned:
    only emptying the GPU cache can still fail. *)
Lemma real_model_body_run
    (self : LlamaQueryExpander) (B : Backend) (q : string)
    (w w1 w2 w3 : World) (enc enc' : encoding) (outputs : list Z)
    (text : string) :
  tokenizer_call self B (prompt_template q) w = (Return enc, w1) ->
  encoding_to B enc w1 = (Return enc', w2) ->
  model_generate self B enc' w2 = (Return outputs, w3) ->
  tokenizer_decode self B outputs w3 = (Return text, w3) ->
  real_model_body self B q w
  = (match device self with
     | cuda => match empty_cache B with
               | Return _ =>
                   Return (_clean_response
                             (if contains marker text
                              then strip (last_field marker text) else q))
               | Raise e => Raise e
               end
     | cpu => Return (_clean_response
                        (if contains marker text
                         then strip (last_field marker text) else q))
     end, w3).
Proof.
  intros Hcall Hto Hgenerate Hdecode. unfold real_model_body.
  rewrite (bind_step _ _ _ _ _ Hcall), (bind_step _ _ _ _ _ Hto),
    (bind_step _ _ _ _ _ Hgenerate), (bind_step _ _ _ _ _ Hdecode).
  unfold bind, call, ret.
  destruct (device self); [destruct (empty_cache B)|]; reflexivity.
Qed.

(** An encoding that was made and then moved to the device came from a
    tokenizer of the library: the mock's is a [dict]. *)
Lemma moved_encoding_tokenizer
    (self : LlamaQueryExpander) (B : Backend) (prompt : string)
    (w w1 w2 : World) (enc enc' : encoding) :
  tokenizer_call self B prompt w = (Return enc, w1) ->
  encoding_to B enc w1 = (Return enc', w2) ->
  exists pad eos, tokenizer self = Some (HFTokenizer pad eos).
Proof.
  unfold tokenizer_call. intros Hcall Hto.
  destruct (tokenizer self) as [[pad eos|]|]; [eauto| |discriminate].
  apply bind_Return in Hcall as (d & wd & _ & Hret).
  injection Hret as <- <-. discriminate Hto.
Qed.

(** X16: take a run of the model path in which the prompt was
    tokenized, the encoding moved to the device and the model generated
    tokens.  When these very tokens decode to the prompt followed by a
    completion in which the marker does not occur (whatever the
    tokenizer makes of other tokens), the model path returns the
    completion, stripped and cleaned, whatever the query holds (the
    marker too): it returns nothing else, and it does return unless
    emptying the GPU cache fails. *)
Theorem real_path_extracts_completion
    (self : LlamaQueryExpander) (B : Backend) (q completion : string)
    (w w1 w2 w3 : World) (enc enc' : encoding) (outputs : list Z) :
  tokenizer_call self B (prompt_template q) w = (Return enc, w1) ->
  encoding_to B enc w1 = (Return enc', w2) ->
  model_generate self B enc' w2 = (Return outputs, w3) ->
  decode B outputs = Return (prompt_template q +:+ completion) ->
  contains "Improved query:" completion = false ->
  (forall out w',
     real_model_body self B q w = (Return out, w') ->
     out = _clean_response (strip completion) /\ w' = w3)
  /\ (device self = cpu \/ empty_cache B = Return tt ->
      real_model_body self B q w
      = (Return (_clean_response (strip completion)), w3)).
Proof.
  intros Hcall Hto Hgenerate Hdecode Hfree.
  destruct (moved_encoding_tokenizer _ _ _ _ _ _ _ _ Hcall Hto)
    as (pad & eos & Htok).
  assert (Htext : tokenizer_decode self B outputs w3
                  = (Return (prompt_template q +:+ completion), w3)).
  { unfold tokenizer_decode, call. now rewrite Htok, Hdecode. }
  pose proof (real_model_body_run self B q w w1 w2 w3 enc enc' outputs _
                Hcall Hto Hgenerate Htext) as Hrun.
  rewrite extract_completion in Hrun by exact Hfree.
  split.
  - intros out w' Hout. rewrite Hrun in Hout.
    destruct (device self); [destruct (empty_cache B)|];
      try discriminate; now injection Hout as <- <-.
  - intros [Hcpu|Hcache]; rewrite Hrun.
    + now rewrite Hcpu.
    + rewrite Hcache. now destruct (device self).
Qed.

End Echo.

Section EchoExample.

Import Py ModelHandler.

Lemma real_path_extracts_completion_witness :
  decode Fixture.token_backend [1; 2; 3] = Return ""
  /\ real_model_body Sample.loaded Fixture.token_backend "ML algos"
       Sample.world0
     = (Return "machine learning algorithms", snd (torch_draw Sample.world0)).
Proof.
  split; [reflexivity|].
  apply (proj2 (real_path_extracts_completion
                  Sample.loaded Fixture.token_backend
                  "ML algos" " machine learning algorithms "
                  Sample.world0 Sample.world0 Sample.world0
                  (snd (torch_draw Sample.world0))
                  (BatchEncoding [1; 2; 3]) (BatchEncoding [1; 2; 3])
                  [1; 2; 3; 4; 5]
                  eq_refl eq_refl eq_refl eq_refl eq_refl)).
  left. reflexivity.
Defined.

End EchoExample.

(** ** More on loading *)

Section LoadingPaths.

Import ModelHandler.

(** X17: without a token for the model hub ([HF_TOKEN] unset or
    empty) [load_model] ends on the mock model and the mock tokenizer,
    ready, whatever the libraries would have answered. *)
Theorem load_model_without_token (L : Loader) (self : LlamaQueryExpander) :
  falsy (getenv_HF_TOKEN L) = true ->
  load_model L self
  = (Return tt,
     {| model := Some MockModel; tokenizer := Some MockTokenizer;
        device := device self; ready := true |})
  /\ load_model_body L self
     = (Raise (ValueError "Hugging Face token is required"), self).
Proof.
  intros Hfalsy.
  unfold load_model, load_model_body, try_except, bind, raise.
  rewrite Hfalsy. split; reflexivity.
Qed.

Lemma load_model_without_token_witness :
  load_model
    {| getenv_HF_TOKEN := Some "";
       AutoTokenizer_from_pretrained := Return (HFTokenizer None None);
       BitsAndBytesConfig := Return tt;
       AutoModelForCausalLM_from_pretrained := fun _ => Return HFModel;
       model_to := fun _ => Return HFModel;
       model_eval := fun _ => Return tt |} Sample.fresh
  = (Return tt,
     {| model := Some MockModel; tokenizer := Some MockTokenizer;
        device := cpu; ready := true |}).
Proof.
  exact (proj1 (load_model_without_token
                  {| getenv_HF_TOKEN := Some "";
                     AutoTokenizer_from_pretrained := Return (HFTokenizer None None);
                     BitsAndBytesConfig := Return tt;
                     AutoModelForCausalLM_from_pretrained := fun _ => Return HFModel;
                     model_to := fun _ => Return HFModel;
                     model_eval := fun _ => Return tt |}
                  Sample.fresh eq_refl)).
Defined.

(** X18: with a token, a tokenizer and a quantization configuration,
    when the quantized attempt raises at any of its steps and the
    attempt without quantization goes through, [load_model] ends ready
    on the model of the second attempt, moved to the device, and on the
    tokenizer, whose missing pad token is its end-of-sequence token. *)
Theorem load_model_fallback
    (L : Loader) (self s2 : LlamaQueryExpander)
    (c : ascii) (token : string) (tok : tokenizer_obj)
    (e : exn) (m m' : model_obj) :
  getenv_HF_TOKEN L = Some (String c token) ->
  AutoTokenizer_from_pretrained L = Return tok ->
  BitsAndBytesConfig L = Return tt ->
  load_quantized L
    (set_tokenizer
       (Some match tok with
             | HFTokenizer None eos => HFTokenizer eos eos
             | _ => tok
             end) self)
  = (Raise e, s2) ->
  AutoModelForCausalLM_from_pretrained L Fallback = Return m ->
  model_to L Fallback = Return m' ->
  model_eval L Fallback = Return tt ->
  load_model L self
  = (Return tt,
     {| model := Some m';
        tokenizer := Some match tok with
                          | HFTokenizer None eos => HFTokenizer eos eos
                          | _ => tok
                          end;
        device := device self; ready := true |}).
Proof.
  intros Htoken Htok Hbnb Hq Hfrom Hto Heval.
  assert (Hkeep : tokenizer s2 = Some match tok with
                                      | HFTokenizer None eos => HFTokenizer eos eos
                                      | _ => tok
                                      end
                  /\ device s2 = device self).
  { clear -Hq. revert Hq.
    unfold load_quantized, bind, call, modify, get. cbn.
    destruct (AutoModelForCausalLM_from_pretrained L Quantized); cbn;
      [destruct (device self) eqn:Hd; cbn;
       [|destruct (model_to L Quantized); cbn];
       try (destruct (model_eval L Quantized); cbn)|];
      intros H; first [discriminate H | injection H as _ <-; split; cbn; auto]. }
  destruct Hkeep as [Htok2 Hdev2].
  unfold load_model, load_model_body, load_tokenizer, load_fallback,
    try_except, bind, call, raise, ret, modify.
  rewrite Htoken, Htok, Hbnb. cbn -[load_quantized set_tokenizer].
  destruct s2 as [m2 t2 d2 r2].
  assert (Htwice : forall a b s,
            set_tokenizer a (set_tokenizer b s) = set_tokenizer a s)
    by reflexivity.
  destruct tok as [[p|] eos|]; cbn -[load_quantized set_tokenizer] in *;
    rewrite ?Htwice, Hq; cbn; rewrite Hfrom, Hto, Heval; cbn; now subst.
Qed.

Lemma load_model_fallback_witness :
  load_model Fixture.quantization_fails Sample.fresh
  = (Return tt,
     {| model := Some HFModel;
        tokenizer := Some (HFTokenizer (Some "<eos>") (Some "<eos>"));
        device := cpu; ready := true |}).
Proof.
  exact (load_model_fallback Fixture.quantization_fails Sample.fresh _
           "h" "f_token" _ _ HFModel HFModel
           eq_refl eq_refl eq_refl eq_refl eq_refl eq_refl eq_refl).
Defined.

End LoadingPaths.
